(** * The GitHub identity-provider builder of ocm-cli

    A shallow embedding of [cmd/ocm/create/idp/github.go]: the function
    [buildGithubIdp], the helper [isValidHostname], and the pieces of the Go
    libraries they call.  Strings are Go strings, that is byte sequences
    ([String.string]).  The terminal (the prompts of the survey library and the
    lines printed on standard output) is explicit state threaded through the
    function. *)

From Stdlib Require Import String Ascii List Bool Arith Lia.
Import ListNotations.
Open Scope string_scope.

(** ** Go's [strings] package *)
Module strings.

(** [strings.Contains(s, substr)]: [substr] occurs somewhere in [s]. *)
Fixpoint Contains (s substr : string) : bool :=
  if String.prefix substr s then true
  else match s with
       | EmptyString => false
       | String _ s' => Contains s' substr
       end.

(** [strings.HasSuffix(s, suffix)]:
    [len(s) >= len(suffix) && s[len(s)-len(suffix):] == suffix]. *)
Definition HasSuffix (s suffix : string) : bool :=
  Nat.leb (String.length suffix) (String.length s) &&
  String.eqb
    (substring (String.length s - String.length suffix) (String.length suffix) s)
    suffix.

(** [strings.Split(s, sep)] for a separator of one byte, the only kind the
    program passes ("," and "/"): the pieces of [s] between the occurrences
    of [sep], in order; a string without [sep] (the empty string too) gives
    the one-element list of itself. *)
Fixpoint Split (s : string) (sep : ascii) : list string :=
  match s with
  | EmptyString => [EmptyString]
  | String c s' =>
      if Ascii.eqb c sep then EmptyString :: Split s' sep
      else match Split s' sep with
           | piece :: rest => String c piece :: rest
           | [] => [String c EmptyString]
           end
  end.

End strings.

(** ** Go error values

    [errors.New(text)] carries its text.  [fmt.Errorf(format, operands...)] is
    kept as the call that built it, format and operands: the rendering of the
    message by [fmt] is not modelled (the source passes an already formatted
    string as the format in two places, so the text shown to the caller is
    that string run through [fmt] once more). *)
Inductive error : Type :=
| errors_New (text : string)
| fmt_Errorf (format : string) (operands : list string).

(** ** k8s.io/apimachinery/pkg/util/validation *)
Module validation.

Definition DNS1123SubdomainMaxLength : nat := 253.

(** The library reports each violation as a message; the caller only counts
    them, so a violation is kept as the rule that is broken. *)
Inductive violation : Type :=
| MaxLenError (length : nat)
| RegexError.

Definition between (lo hi c : ascii) : bool :=
  Nat.leb (nat_of_ascii lo) (nat_of_ascii c) &&
  Nat.leb (nat_of_ascii c) (nat_of_ascii hi).

(** The class [[a-z0-9]]. *)
Definition isLowerAlnum (c : ascii) : bool :=
  between "a" "z" c || between "0" "9" c.

(** The class [[-a-z0-9]]. *)
Definition isLabelChar (c : ascii) : bool :=
  Ascii.eqb c "-" || isLowerAlnum c.

Fixpoint allChars (p : ascii -> bool) (s : string) : bool :=
  match s with
  | EmptyString => true
  | String c s' => p c && allChars p s'
  end.

Fixpoint lastChar (c : ascii) (s : string) : ascii :=
  match s with
  | EmptyString => c
  | String c' s' => lastChar c' s'
  end.

(** A whole-string match of [[a-z0-9]([-a-z0-9]*[a-z0-9])?]. *)
Definition matchLabel (label : string) : bool :=
  match label with
  | EmptyString => false
  | String c rest =>
      isLowerAlnum c && allChars isLabelChar rest && isLowerAlnum (lastChar c rest)
  end.

(** A whole-string match of the label pattern followed by any number of
    ["." label]. *)
Definition matchSubdomain (value : string) : bool :=
  forallb matchLabel (strings.Split value ".").

(** Modelled from the spec: the Kubernetes library function
    [validation.IsDNS1123Subdomain] is not part of this repository.  It
    returns the list of violations: one when the value is longer than 253
    bytes, one when it does not match the DNS-1123 subdomain pattern
    (lowercase alphanumerics and hyphens, labels separated by dots, no
    leading or trailing hyphen in a label). *)
Definition IsDNS1123Subdomain (value : string) : list violation :=
  ((if Nat.ltb DNS1123SubdomainMaxLength (String.length value)
    then [MaxLenError DNS1123SubdomainMaxLength] else [])
   ++ (if matchSubdomain value then [] else [RegexError]))%list.

End validation.

(** ** Go's [net/url] package: the data *)
Module url.

(** The fields of [url.URL] this program can observe. *)
Record URL : Type := mkURL {
  Scheme : string;
  Host : string;
  Path : string;
  RawQuery : string;
  Fragment : string
}.

Definition setRawQuery (u : URL) (q : string) : URL :=
  mkURL (Scheme u) (Host u) (Path u) q (Fragment u).

(** [url.Values]: the keys with their values, in the order of the [Add]
    calls. *)
Definition Values : Type := list (string * string).

Definition Add (v : Values) (key value : string) : Values :=
  (v ++ [(key, value)])%list.

End url.

(** ** What the program takes from outside this file

    Library functions and collaborators whose code is not in the repository's
    source file.  Every theorem below holds for all of them. *)
Class Externals : Type := {
  (** [netutils.ParseIPSloppy]: the address, or [None] for Go's [nil]. *)
  netutils_ParseIPSloppy : string -> option (list nat);
  (** [url.Parse]: the error's text or the parsed URL. *)
  url_Parse : string -> string + url.URL;
  (** the [String] method of a parsed URL *)
  url_String : url.URL -> string;
  (** [url.Values.Encode] *)
  url_Encode : url.Values -> string;
  (** the cluster object, with [cluster.Name()], [cluster.Console().URL()] and
      [c.GetClusterOauthURL(cluster)]. *)
  Cluster : Type;
  cluster_Name : Cluster -> string;
  cluster_ConsoleURL : Cluster -> string;
  c_GetClusterOauthURL : Cluster -> string
}.

(** ** The builders of ocm-sdk-go ([cmv1])

    A field is [None] until its setter has been called, which is what the
    builder's bitmap records. *)
Module cmv1.

Record GithubIdentityProviderBuilder : Type := mkGithub {
  clientID : option string;
  clientSecret : option string;
  hostname : option string;
  organizations : option (list string);
  teams : option (list string)
}.

Definition NewGithubIdentityProvider : GithubIdentityProviderBuilder :=
  mkGithub None None None None None.

Definition ClientID (value : string) (b : GithubIdentityProviderBuilder) :=
  mkGithub (Some value) (clientSecret b) (hostname b) (organizations b) (teams b).

Definition ClientSecret (value : string) (b : GithubIdentityProviderBuilder) :=
  mkGithub (clientID b) (Some value) (hostname b) (organizations b) (teams b).

Definition Hostname (value : string) (b : GithubIdentityProviderBuilder) :=
  mkGithub (clientID b) (clientSecret b) (Some value) (organizations b) (teams b).

Definition Organizations (values : list string) (b : GithubIdentityProviderBuilder) :=
  mkGithub (clientID b) (clientSecret b) (hostname b) (Some values) (teams b).

Definition Teams (values : list string) (b : GithubIdentityProviderBuilder) :=
  mkGithub (clientID b) (clientSecret b) (hostname b) (organizations b) (Some values).

(** The fields of [IdentityProviderBuilder] the GitHub path sets. *)
Record IdentityProviderBuilder : Type := mkIdp {
  type_ : option string;
  name : option string;
  mappingMethod : option string;
  github : option GithubIdentityProviderBuilder
}.

(** The zero value of the struct: the named result [idpBuilder] on entry. *)
Definition zero : IdentityProviderBuilder := mkIdp None None None None.

Definition Type_ (value : string) (b : IdentityProviderBuilder) :=
  mkIdp (Some value) (name b) (mappingMethod b) (github b).

Definition Name (value : string) (b : IdentityProviderBuilder) :=
  mkIdp (type_ b) (Some value) (mappingMethod b) (github b).

Definition MappingMethod (value : string) (b : IdentityProviderBuilder) :=
  mkIdp (type_ b) (name b) (Some value) (github b).

Definition Github (value : GithubIdentityProviderBuilder) (b : IdentityProviderBuilder) :=
  mkIdp (type_ b) (name b) (mappingMethod b) (Some value).

End cmv1.

(** ** The terminal

    [stdin] holds what the operator will do at the prompts still to come,
    first prompt first: [Some answer] for a line typed, [None] for a prompt
    that is aborted.  [stdout] is what has been shown so far, oldest first. *)
Inductive Event : Type :=
| Printed (line : string)
| Asked (message : string).

Record Terminal : Type := mkTerminal {
  stdin : list (option string);
  stdout : list Event
}.

(** ** Function bodies with early [return]

    A computation over the terminal either goes on with a value ([inl]) or
    has executed a [return] statement ([inr]). *)
Definition Body (R A : Type) : Type := Terminal -> (A + R) * Terminal.

Definition pure {R A} (a : A) : Body R A := fun t => (inl a, t).

Definition Return {R A} (r : R) : Body R A := fun t => (inr r, t).

Definition bind {R A B} (m : Body R A) (k : A -> Body R B) : Body R B :=
  fun t =>
    match m t with
    | (inl a, t') => k a t'
    | (inr r, t') => (inr r, t')
    end.

Notation "x <- m ;; k" := (bind m (fun x => k))
  (at level 61, m at next level, right associativity).
Notation "' pat <- m ;; k" := (bind m (fun x => match x with pat => k end))
  (at level 61, pat pattern, m at next level, right associativity).
Notation "m ;; k" := (bind m (fun _ => k))
  (at level 61, right associativity).

(** Running a whole function body: falling off the end and [return] are the
    same for the caller. *)
Definition call {R} (body : Body R R) (t : Terminal) : R * Terminal :=
  match body t with
  | (inl r, t') => (r, t')
  | (inr r, t') => (r, t')
  end.

Module fmt.

(** [fmt.Println(line)] *)
Definition Println {R} (line : string) : Body R unit :=
  fun t => (inl tt, mkTerminal (stdin t) (stdout t ++ [Printed line])%list).

(** [fmt.Sprintf] of a format with one [%s] and a string operand: the
    text before the verb, the operand, the text after it. *)
Definition Sprintf_s (before operand after : string) : string :=
  before ++ operand ++ after.

End fmt.

Module survey.

(** [survey.AskOne(&survey.Input{Message: message}, &answer)] with no
    validator: shows the prompt and takes the operator's next action.
    [None] stands for a non-nil error (the prompt was aborted, or the input
    is at its end), and then the variable is not written; [Some answer] is
    the line typed, which may be empty. *)
Definition AskOne {R} (message : string) : Body R (option string) :=
  fun t =>
    let out := (stdout t ++ [Asked message])%list in
    match stdin t with
    | [] => (inl None, mkTerminal [] out)
    | reply :: rest => (inl reply, mkTerminal rest out)
    end.

End survey.

(** ** The flag-bound variables of the command ([args]) *)
Module args.

Record t : Type := mk {
  clientID : string;
  clientSecret : string;
  githubOrganizations : string;
  githubTeams : string;
  githubHostname : string;
  mappingMethod : string
}.

End args.

(** ** github.go *)

(** What [buildGithubIdp] returns: the builder and the error ([None] for
    [nil]). *)
Definition Result : Type := cmv1.IdentityProviderBuilder * option error.

(** [isValidHostname]: no violation of the DNS-1123 subdomain rules, or an IP
    address. *)
Definition isValidHostname `{Externals} (hostname : string) : bool :=
  Nat.eqb (List.length (validation.IsDNS1123Subdomain hostname)) 0
  || match netutils_ParseIPSloppy hostname with
     | Some _ => true
     | None => false
     end.

(** The local [isInteractive] of [buildGithubIdp]. *)
Definition isInteractive (clientID clientSecret organizations teams : string) : bool :=
  (clientID =? "") || (clientSecret =? "")
  || ((organizations =? "") && (teams =? "")).

(** The local [registerURLBase] of [buildGithubIdp], once its two
    conditional assignments are done.  [strings.Split] never returns an empty
    slice, so the index [[0]] cannot panic; [hd] takes it. *)
Definition registerURLBase (organizations teams : string) : string :=
  if negb (organizations =? "") && negb (strings.Contains organizations ",") then
    fmt.Sprintf_s "https://github.com/organizations/" organizations
                  "/settings/applications/new"
  else if negb (teams =? "") && negb (strings.Contains teams ",") then
    let teamOrg := hd "" (strings.Split teams "/") in
    fmt.Sprintf_s "https://github.com/organizations/" teamOrg
                  "/settings/applications/new"
  else "https://github.com/settings/applications/new".

(** [buildGithubIdp].  The named result [err] is [nil] whenever the end of the
    function is reached: every non-nil value assigned to it is followed by a
    [return] with an error of its own. *)
Definition buildGithubIdp `{Externals} (a : args.t) (cluster : Cluster)
    (idpName : string) : Terminal -> Result * Terminal :=
  call (
    let idpBuilder := cmv1.zero in
    let clientID := args.clientID a in
    let clientSecret := args.clientSecret a in
    let organizations := args.githubOrganizations a in
    let teams := args.githubTeams a in
    let teamsOrOrgs := "" in

    if negb (organizations =? "") && negb (teams =? "") then
      Return (idpBuilder,
              Some (errors_New "GitHub IDP only allows either organizations or teams, but not both"))
    else

    let isInteractive := isInteractive clientID clientSecret organizations teams in

    '(clientID, clientSecret, organizations, teams) <-
      (if isInteractive then
         fmt.Println "To use GitHub as an identity provider, you must first register the application:" ;;

         teamsOrOrgs <-
           (if (organizations =? "") && (teams =? "") then
              reply <- survey.AskOne "List of GitHub organizations or teams that will have access to this cluster:" ;;
              match reply with
              | None =>
                  Return (idpBuilder,
                          Some (errors_New "Expected a GitHub organization or team name"))
              | Some answer => pure answer
              end
            else pure teamsOrOrgs) ;;

         (* Determine if the user entered teams or organizations *)
         let '(organizations, teams) :=
           if strings.Contains teamsOrOrgs "/" then (organizations, teamsOrOrgs)
           else (teamsOrOrgs, teams) in

         (* Create the full URL to automatically generate the GitHub app info *)
         let registerURLBase := registerURLBase organizations teams in

         match url_Parse registerURLBase with
         | inl err =>
             Return (idpBuilder, Some (fmt_Errorf "Error parsing URL: %v" [err]))
         | inr registerURL =>
             (* Populate fields in the GitHub registration form *)
             let consoleURL := cluster_ConsoleURL cluster in
             let oauthURL := c_GetClusterOauthURL cluster in
             let urlParams : url.Values := [] in
             let urlParams := url.Add urlParams "oauth_application[name]" (cluster_Name cluster) in
             let urlParams := url.Add urlParams "oauth_application[url]" consoleURL in
             let urlParams := url.Add urlParams "oauth_application[callback_url]"
                                      (oauthURL ++ "/oauth2callback/" ++ idpName) in

             let registerURL := url.setRawQuery registerURL (url_Encode urlParams) in

             fmt.Println ("* Open the following URL:" ++ " " ++ url_String registerURL) ;;
             fmt.Println "* Click on 'Register application'" ;;

             clientID <-
               (if clientID =? "" then
                  reply <- survey.AskOne "Copy the Client ID provided by GitHub:" ;;
                  match reply with
                  | None =>
                      Return (idpBuilder,
                              Some (errors_New "Expected a GitHub application Client ID"))
                  | Some answer => pure answer
                  end
                else pure clientID) ;;

             clientSecret <-
               (if clientSecret =? "" then
                  reply <- survey.AskOne "Copy the Client Secret provided by GitHub:" ;;
                  match reply with
                  | None =>
                      Return (idpBuilder,
                              Some (errors_New "Expected a GitHub application Client Secret"))
                  | Some answer => pure answer
                  end
                else pure clientSecret) ;;

             pure (clientID, clientSecret, organizations, teams)
         end
       else pure (clientID, clientSecret, organizations, teams)) ;;

    (* Create GitHub IDP *)
    let githubIDP :=
      cmv1.ClientSecret clientSecret
        (cmv1.ClientID clientID cmv1.NewGithubIdentityProvider) in

    githubIDP <-
      (if negb (args.githubHostname a =? "") then
         if negb (isValidHostname (args.githubHostname a)) then
           Return (idpBuilder,
                   Some (fmt_Errorf
                           (fmt.Sprintf_s "'" (args.githubHostname a)
                              "' hostname must be a valid DNS subdomain or IP address")
                           []))
         else
         (* Allow only non GitHub domains *)
         if (args.githubHostname a =? "github.com")
            || strings.HasSuffix (args.githubHostname a) ".github.com" then
           Return (idpBuilder,
                   Some (fmt_Errorf
                           (fmt.Sprintf_s "'" (args.githubHostname a)
                              "' hostname cannot be equal to [*.]github.com")
                           []))
         else
         (* Set the hostname, if any *)
         pure (cmv1.Hostname (args.githubHostname a) githubIDP)
       else pure githubIDP) ;;

    (* Set organizations or teams in the IDP object *)
    let githubIDP :=
      if negb (organizations =? "") then
        cmv1.Organizations (strings.Split organizations ",") githubIDP
      else if negb (teams =? "") then
        cmv1.Teams (strings.Split teams ",") githubIDP
      else githubIDP in

    (* Create new IDP with GitHub provider *)
    let idpBuilder :=
      cmv1.Github githubIDP
        (cmv1.MappingMethod (args.mappingMethod a)
           (cmv1.Name idpName
              (cmv1.Type_ "GithubIdentityProvider" idpBuilder))) in

    Return (idpBuilder, None)).

(** ** The texts of the function, named *)
Definition introLine : string :=
  "To use GitHub as an identity provider, you must first register the application:".

Definition organizationsPrompt : string :=
  "List of GitHub organizations or teams that will have access to this cluster:".

Definition clientIDPrompt : string := "Copy the Client ID provided by GitHub:".

Definition clientSecretPrompt : string := "Copy the Client Secret provided by GitHub:".

Definition conflictError : error :=
  errors_New "GitHub IDP only allows either organizations or teams, but not both".

Definition expectedOrganization : error :=
  errors_New "Expected a GitHub organization or team name".

Definition expectedClientID : error :=
  errors_New "Expected a GitHub application Client ID".

Definition expectedClientSecret : error :=
  errors_New "Expected a GitHub application Client Secret".

(** The two hostname errors; both carry the hostname between quotes. *)
Definition invalidHostname (hostname : string) : error :=
  fmt_Errorf ("'" ++ hostname ++ "' hostname must be a valid DNS subdomain or IP address") [].

Definition githubHostname (hostname : string) : error :=
  fmt_Errorf ("'" ++ hostname ++ "' hostname cannot be equal to [*.]github.com") [].

(** ** The error kinds of the specification

    The source has no error types, only messages; a kind is the set of the
    errors the source builds for it. *)
Definition ConflictError (e : error) : Prop := e = conflictError.

Definition InputError (e : error) : Prop :=
  e = expectedOrganization \/ e = expectedClientID \/ e = expectedClientSecret.

Definition URLError (e : error) : Prop :=
  exists err, e = fmt_Errorf "Error parsing URL: %v" [err].

Definition ValidationError (hostname : string) (e : error) : Prop :=
  e = invalidHostname hostname \/ e = githubHostname hostname.

(** The line that shows the registration URL, for a parsed base. *)
Definition openURLLine `{Externals} (cluster : Cluster) (idpName : string)
    (registerURL : url.URL) : string :=
  "* Open the following URL: "
  ++ url_String
       (url.setRawQuery registerURL
          (url_Encode
             [("oauth_application[name]", cluster_Name cluster);
              ("oauth_application[url]", cluster_ConsoleURL cluster);
              ("oauth_application[callback_url]",
               c_GetClusterOauthURL cluster ++ "/oauth2callback/" ++ idpName)])).

(** ** Vocabulary of the statements *)

(** The rules of a DNS-1123 subdomain in the specification's words: at most
    253 bytes; dot-separated labels; a label is not empty, is made of
    lowercase letters, digits and hyphens, and neither starts nor ends with a
    hyphen. *)
Definition Label (label : string) : Prop :=
  label <> ""
  /\ (forall i c, String.get i label = Some c -> validation.isLabelChar c = true)
  /\ String.get 0 label <> Some "-"%char
  /\ String.get (String.length label - 1) label <> Some "-"%char.

Definition DNS1123Subdomain (value : string) : Prop :=
  String.length value <= 253
  /\ Forall Label (strings.Split value ".").

(** The hostname is the real GitHub domain or below it. *)
Definition aliasesGithub (hostname : string) : bool :=
  (hostname =? "github.com") || strings.HasSuffix hostname ".github.com".

(** The text of [s] before the first occurrence of the byte [sep] (all of [s]
    when there is none). *)
Fixpoint beforeFirst (sep : ascii) (s : string) : string :=
  match s with
  | EmptyString => EmptyString
  | String c s' => if Ascii.eqb c sep then EmptyString else String c (beforeFirst sep s')
  end.

(** The same flags with another hostname, and with another mapping method. *)
Definition withHostname (hostname : string) (a : args.t) : args.t :=
  args.mk (args.clientID a) (args.clientSecret a) (args.githubOrganizations a)
          (args.githubTeams a) hostname (args.mappingMethod a).

Definition withMappingMethod (mappingMethod : string) (a : args.t) : args.t :=
  args.mk (args.clientID a) (args.clientSecret a) (args.githubOrganizations a)
          (args.githubTeams a) (args.githubHostname a) mappingMethod.

(** The organizations and teams strings once the interactive block has
    classified the answer (the source's lines 54 to 70): the answer, when the
    combined prompt was shown, goes to teams if it contains a slash and to
    organizations otherwise; with no prompt shown the answer variable is
    still empty. *)
Definition resolved (a : args.t) (t : Terminal) : string * string :=
  let teamsOrOrgs :=
    if (args.githubOrganizations a =? "") && (args.githubTeams a =? "") then
      match stdin t with
      | Some answer :: _ => answer
      | _ => ""
      end
    else "" in
  if strings.Contains teamsOrOrgs "/" then (args.githubOrganizations a, teamsOrOrgs)
  else (teamsOrOrgs, args.githubTeams a).

(** ** The function in two blocks

    The same code cut at the comment [// Create GitHub IDP]: the body of
    [if isInteractive] on one side, the validation and assembly that follow it
    on the other.  [buildGithubIdp_blocks] below shows that [buildGithubIdp]
    is these two in sequence; the proofs go through them. *)

(** The body of [if isInteractive { ... }] (the source's lines 52 to 119).  It
    yields the four variables it assigns, or returns from the function. *)
Definition interactive `{Externals} (a : args.t) (cluster : Cluster)
    (idpName : string) : Body Result (string * string * string * string) :=
  let idpBuilder := cmv1.zero in
  let clientID := args.clientID a in
  let clientSecret := args.clientSecret a in
  let organizations := args.githubOrganizations a in
  let teams := args.githubTeams a in
  let teamsOrOrgs := "" in
  fmt.Println "To use GitHub as an identity provider, you must first register the application:" ;;
  teamsOrOrgs <-
    (if (organizations =? "") && (teams =? "") then
       reply <- survey.AskOne "List of GitHub organizations or teams that will have access to this cluster:" ;;
       match reply with
       | None =>
           Return (idpBuilder,
                   Some (errors_New "Expected a GitHub organization or team name"))
       | Some answer => pure answer
       end
     else pure teamsOrOrgs) ;;
  let '(organizations, teams) :=
    if strings.Contains teamsOrOrgs "/" then (organizations, teamsOrOrgs)
    else (teamsOrOrgs, teams) in
  let registerURLBase := registerURLBase organizations teams in
  match url_Parse registerURLBase with
  | inl err =>
      Return (idpBuilder, Some (fmt_Errorf "Error parsing URL: %v" [err]))
  | inr registerURL =>
      let consoleURL := cluster_ConsoleURL cluster in
      let oauthURL := c_GetClusterOauthURL cluster in
      let urlParams : url.Values := [] in
      let urlParams := url.Add urlParams "oauth_application[name]" (cluster_Name cluster) in
      let urlParams := url.Add urlParams "oauth_application[url]" consoleURL in
      let urlParams := url.Add urlParams "oauth_application[callback_url]"
                               (oauthURL ++ "/oauth2callback/" ++ idpName) in
      let registerURL := url.setRawQuery registerURL (url_Encode urlParams) in
      fmt.Println ("* Open the following URL:" ++ " " ++ url_String registerURL) ;;
      fmt.Println "* Click on 'Register application'" ;;
      clientID <-
        (if clientID =? "" then
           reply <- survey.AskOne "Copy the Client ID provided by GitHub:" ;;
           match reply with
           | None =>
               Return (idpBuilder,
                       Some (errors_New "Expected a GitHub application Client ID"))
           | Some answer => pure answer
           end
         else pure clientID) ;;
      clientSecret <-
        (if clientSecret =? "" then
           reply <- survey.AskOne "Copy the Client Secret provided by GitHub:" ;;
           match reply with
           | None =>
               Return (idpBuilder,
                       Some (errors_New "Expected a GitHub application Client Secret"))
           | Some answer => pure answer
           end
         else pure clientSecret) ;;
      pure (clientID, clientSecret, organizations, teams)
  end.

(** The organizations or the teams set in the GitHub builder (the source's
    lines 144 to 148). *)
Definition attach (organizations teams : string)
    (githubIDP : cmv1.GithubIdentityProviderBuilder) : cmv1.GithubIdentityProviderBuilder :=
  if negb (organizations =? "") then
    cmv1.Organizations (strings.Split organizations ",") githubIDP
  else if negb (teams =? "") then
    cmv1.Teams (strings.Split teams ",") githubIDP
  else githubIDP.

(** The builder the function ends with (the source's lines 151 to 155). *)
Definition finish (a : args.t) (idpName : string)
    (githubIDP : cmv1.GithubIdentityProviderBuilder) : cmv1.IdentityProviderBuilder :=
  cmv1.Github githubIDP
    (cmv1.MappingMethod (args.mappingMethod a)
       (cmv1.Name idpName (cmv1.Type_ "GithubIdentityProvider" cmv1.zero))).

(** From [// Create GitHub IDP] to the end (the source's lines 122 to 157),
    as a function of the four variables as they are at that point.  This part
    does not touch the terminal. *)
Definition assemble `{Externals} (a : args.t)
    (idpName clientID clientSecret organizations teams : string) : Result :=
  let githubIDP :=
    cmv1.ClientSecret clientSecret
      (cmv1.ClientID clientID cmv1.NewGithubIdentityProvider) in
  if args.githubHostname a =? "" then
    (finish a idpName (attach organizations teams githubIDP), None)
  else if negb (isValidHostname (args.githubHostname a)) then
    (cmv1.zero, Some (invalidHostname (args.githubHostname a)))
  else if aliasesGithub (args.githubHostname a) then
    (cmv1.zero, Some (githubHostname (args.githubHostname a)))
  else
    (finish a idpName
       (attach organizations teams (cmv1.Hostname (args.githubHostname a) githubIDP)),
     None).

(** Every run, by the way it went: refused at once, in batch mode, stopped
    inside the interactive block, or through it. *)
Inductive Path `{Externals} (a : args.t) (cluster : Cluster) (idpName : string)
    (t : Terminal) : Result -> Terminal -> Prop :=
| conflict :
    args.githubOrganizations a <> "" -> args.githubTeams a <> "" ->
    Path a cluster idpName t (cmv1.zero, Some conflictError) t
| batch :
    ~ (args.githubOrganizations a <> "" /\ args.githubTeams a <> "") ->
    isInteractive (args.clientID a) (args.clientSecret a)
                  (args.githubOrganizations a) (args.githubTeams a) = false ->
    Path a cluster idpName t
         (assemble a idpName (args.clientID a) (args.clientSecret a)
                   (args.githubOrganizations a) (args.githubTeams a)) t
| stopped e t' :
    ~ (args.githubOrganizations a <> "" /\ args.githubTeams a <> "") ->
    isInteractive (args.clientID a) (args.clientSecret a)
                  (args.githubOrganizations a) (args.githubTeams a) = true ->
    interactive a cluster idpName t = (inr (cmv1.zero, Some e), t') ->
    InputError e \/ URLError e ->
    Path a cluster idpName t (cmv1.zero, Some e) t'
| collected clientID clientSecret organizations teams t' :
    ~ (args.githubOrganizations a <> "" /\ args.githubTeams a <> "") ->
    isInteractive (args.clientID a) (args.clientSecret a)
                  (args.githubOrganizations a) (args.githubTeams a) = true ->
    interactive a cluster idpName t
    = (inl (clientID, clientSecret, organizations, teams), t') ->
    (organizations, teams) = resolved a t ->
    Path a cluster idpName t
         (assemble a idpName clientID clientSecret organizations teams) t'.

(** A change made to the GitHub part of a builder. *)
Definition onGithub
    (f : cmv1.GithubIdentityProviderBuilder -> cmv1.GithubIdentityProviderBuilder)
    (b : cmv1.IdentityProviderBuilder) : cmv1.IdentityProviderBuilder :=
  cmv1.mkIdp (cmv1.type_ b) (cmv1.name b) (cmv1.mappingMethod b)
             (option_map f (cmv1.github b)).

(** The prompts shown in a piece of output. *)
Definition prompts (out : list Event) : list string :=
  flat_map (fun e => match e with Asked m => [m] | Printed _ => [] end) out.

(** The GitHub part of a builder, read back. *)
Definition readOrganizations (b : cmv1.IdentityProviderBuilder) : option (list string) :=
  match cmv1.github b with
  | Some g => cmv1.organizations g
  | None => None
  end.

Definition readTeams (b : cmv1.IdentityProviderBuilder) : option (list string) :=
  match cmv1.github b with
  | Some g => cmv1.teams g
  | None => None
  end.

Definition readHostname (b : cmv1.IdentityProviderBuilder) : option string :=
  match cmv1.github b with
  | Some g => cmv1.hostname g
  | None => None
  end.

(** ** Vocabulary of the further properties *)

Definition clickLine : string := "* Click on 'Register application'".

(** How many times each prompt is shown in a run that goes through the
    interactive block: once when what it asks for is missing. *)
Definition combinedPrompts (a : args.t) : nat :=
  if (args.githubOrganizations a =? "") && (args.githubTeams a =? "") then 1 else 0.

Definition clientIDPrompts (a : args.t) : nat :=
  if args.clientID a =? "" then 1 else 0.

Definition clientSecretPrompts (a : args.t) : nat :=
  if args.clientSecret a =? "" then 1 else 0.

(** The line typed as the reply number [k] (from 0) of those waiting, if
    there is one and it is not an aborted prompt. *)
Definition typedAt (k : nat) (t : Terminal) : option string :=
  match nth_error (stdin t) k with
  | Some (Some answer) => Some answer
  | _ => None
  end.

(** Everything the interactive block shows when it runs to its end, for the
    parsed registration URL. *)
Definition transcript `{Externals} (a : args.t) (cluster : Cluster)
    (idpName : string) (registerURL : url.URL) : list Event :=
  ([Printed introLine]
   ++ repeat (Asked organizationsPrompt) (combinedPrompts a)
   ++ [Printed (openURLLine cluster idpName registerURL); Printed clickLine]
   ++ repeat (Asked clientIDPrompt) (clientIDPrompts a)
   ++ repeat (Asked clientSecretPrompt) (clientSecretPrompts a))%list.

(** What a run may show: the five fixed texts, and the line with the
    registration URL parsed from the address for the resolved strings. *)
Definition Shown `{Externals} (a : args.t) (cluster : Cluster) (idpName : string)
    (t : Terminal) (ev : Event) : Prop :=
  ev = Printed introLine
  \/ ev = Asked organizationsPrompt
  \/ (exists registerURL,
         url_Parse (registerURLBase (fst (resolved a t)) (snd (resolved a t)))
         = inr registerURL
         /\ ev = Printed (openURLLine cluster idpName registerURL))
  \/ ev = Printed clickLine
  \/ ev = Asked clientIDPrompt
  \/ ev = Asked clientSecretPrompt.

(** The line typed as reply number [k], the empty line if there is none. *)
Definition typed (k : nat) (t : Terminal) : string :=
  match typedAt k t with
  | Some answer => answer
  | None => ""
  end.

(** ** A scripted environment for running the function on concrete inputs

    Stand-ins for the libraries: an address parser that knows the literals of
    a table, a URL parser that refuses control bytes and otherwise keeps what
    follows the GitHub origin as the path, and plain renderings without
    escaping.  Only the closed examples use them. *)
Module scripted.

Definition addresses : list (string * list nat) :=
  [ ("::1", [0;0;0;0;0;0;0;0;0;0;0;0;0;0;0;1]);
    ("10.0.0.1", [0;0;0;0;0;0;0;0;0;0;255;255;10;0;0;1]) ].

Fixpoint lookup (s : string) (table : list (string * list nat)) : option (list nat) :=
  match table with
  | [] => None
  | (k, v) :: rest => if k =? s then Some v else lookup s rest
  end.

Definition isCTL (c : ascii) : bool :=
  Nat.ltb (nat_of_ascii c) 32 || Nat.eqb (nat_of_ascii c) 127.

Definition origin : string := "https://github.com".

Definition Parse (rawURL : string) : string + url.URL :=
  if negb (validation.allChars (fun c => negb (isCTL c)) rawURL) then
    inl "net/url: invalid control character in URL"
  else if String.prefix origin rawURL then
    inr (url.mkURL "https" "github.com"
           (substring (String.length origin)
                      (String.length rawURL - String.length origin) rawURL)
           "" "")
  else inr (url.mkURL "" "" rawURL "" "").

Definition String_ (u : url.URL) : string :=
  url.Scheme u ++ "://" ++ url.Host u ++ url.Path u ++ "?" ++ url.RawQuery u.

Definition Encode (v : url.Values) : string :=
  String.concat "&" (map (fun kv => fst kv ++ "=" ++ snd kv) v).

Record cluster : Type := mkCluster {
  clusterName : string;
  consoleURL : string;
  oauthURL : string
}.

Definition externals : Externals := {|
  netutils_ParseIPSloppy := fun s => lookup s addresses;
  url_Parse := Parse;
  url_String := String_;
  url_Encode := Encode;
  Cluster := cluster;
  cluster_Name := clusterName;
  cluster_ConsoleURL := consoleURL;
  c_GetClusterOauthURL := oauthURL
|}.

Definition prod : cluster :=
  mkCluster "prod" "https://console.prod.example.com" "https://oauth.prod.example.com".

(** A terminal with the given replies waiting and nothing shown yet. *)
Definition terminal (replies : list (option string)) : Terminal :=
  mkTerminal replies [].

End scripted.

(** ** Go's URL parser on the addresses of this program

    A model of [url.Parse] of Go's [net/url] for the addresses the function
    builds, which all start with [https://github.com/]
    ([registerURLBase_origin] below): the fragment is what follows the first
    [#]; before it no control byte is allowed; the query is what follows the
    first [?]; the rest after the host is the path, with its percent escapes
    decoded, and a malformed escape is an error.  The scheme and the host of
    these addresses are fixed, so the general treatment of schemes and
    authorities is left out and any other address is refused.  An error is
    given by its cause, without the operation and the quoted address Go
    puts in front. *)
Module gourl.

(** [strings.Cut(s, sep)] for a separator of one byte: the text before the
    first [sep] and, if there is one, the text after it. *)
Fixpoint Cut (s : string) (sep : ascii) : string * option string :=
  match s with
  | EmptyString => (EmptyString, None)
  | String c s' =>
      if Ascii.eqb c sep then (EmptyString, Some s')
      else let (before, after) := Cut s' sep in (String c before, after)
  end.

(** [stringContainsCTLByte]: a byte below the space, or 0x7f. *)
Definition isCTL (c : ascii) : bool :=
  Nat.ltb (nat_of_ascii c) 32 || Nat.eqb (nat_of_ascii c) 127.

Fixpoint stringContainsCTLByte (s : string) : bool :=
  match s with
  | EmptyString => false
  | String c s' => isCTL c || stringContainsCTLByte s'
  end.

Definition ishex (c : ascii) : bool :=
  validation.between "0" "9" c || validation.between "a" "f" c
  || validation.between "A" "F" c.

Definition unhex (c : ascii) : nat :=
  if validation.between "0" "9" c then nat_of_ascii c - nat_of_ascii "0"
  else if validation.between "a" "f" c then nat_of_ascii c - nat_of_ascii "a" + 10
  else if validation.between "A" "F" c then nat_of_ascii c - nat_of_ascii "A" + 10
  else 0.

(** [unescape] for a path or a fragment: [%] must be followed by two
    hexadecimal digits, which give one byte; [None] is the escape error. *)
Fixpoint unescape (s : string) : option string :=
  match s with
  | EmptyString => Some EmptyString
  | String c rest =>
      if Ascii.eqb c "%" then
        match rest with
        | String h (String l rest') =>
            if ishex h && ishex l then
              option_map (String (ascii_of_nat (unhex h * 16 + unhex l)))
                         (unescape rest')
            else None
        | _ => None
        end
      else option_map (String c) (unescape rest)
  end.

Definition origin : string := "https://github.com".

(** The text of [s] after its first [n] bytes. *)
Fixpoint dropBytes (n : nat) (s : string) : string :=
  match n, s with
  | S n', String _ s' => dropBytes n' s'
  | _, _ => s
  end.

Definition Parse (rawURL : string) : string + url.URL :=
  let (u, frag) := Cut rawURL "#" in
  if stringContainsCTLByte u then inl "net/url: invalid control character in URL"
  else if negb (String.prefix (origin ++ "/") u) then
    inl "address outside the model"
  else
    let (rest, query) := Cut (dropBytes (String.length origin) u) "?" in
    match unescape rest with
    | None => inl "invalid URL escape"
    | Some path =>
        let rawQuery := match query with Some q => q | None => "" end in
        match frag with
        | None | Some EmptyString =>
            inr (url.mkURL "https" "github.com" path rawQuery "")
        | Some f =>
            match unescape f with
            | None => inl "invalid URL escape"
            | Some fragment =>
                inr (url.mkURL "https" "github.com" path rawQuery fragment)
            end
        end
    end.

(** The scripted environment with this parser in place of its own. *)
Definition externals : Externals := {|
  netutils_ParseIPSloppy := netutils_ParseIPSloppy (Externals := scripted.externals);
  url_Parse := Parse;
  url_String := scripted.String_;
  url_Encode := scripted.Encode;
  Cluster := scripted.cluster;
  cluster_Name := scripted.clusterName;
  cluster_ConsoleURL := scripted.consoleURL;
  c_GetClusterOauthURL := scripted.oauthURL
|}.

(** A byte the parser leaves where it is: no control byte and none of
    [?], [#] and [%]. *)
Definition plainByte (c : ascii) : bool :=
  negb (isCTL c) && negb (Ascii.eqb c "?") && negb (Ascii.eqb c "#")
  && negb (Ascii.eqb c "%").

Definition plain (s : string) : bool := validation.allChars plainByte s.

End gourl.

(** The environment's [url.Parse] is Go's on the addresses that start with
    GitHub's origin and a slash. *)
Definition GoParser `{Externals} : Prop :=
  forall rest : string,
    url_Parse (gourl.origin ++ "/" ++ rest)
    = gourl.Parse (gourl.origin ++ "/" ++ rest).

(** * Facts about the string functions *)
Section StringFacts.

Lemma Split_not_nil (s : string) (sep : ascii) : strings.Split s sep <> [].
Proof.
  destruct s as [|c s]; cbn; [discriminate|].
  destruct (Ascii.eqb c sep); [discriminate|].
  destruct (strings.Split s sep); discriminate.
Qed.

(** The first piece of a split is the text before the first separator:
    what the source's [strings.Split(teams, "/")[0]] takes. *)
Lemma hd_Split (s : string) (sep : ascii) :
  hd "" (strings.Split s sep) = beforeFirst sep s.
Proof.
  induction s as [|c s IH]; cbn; [reflexivity|].
  destruct (Ascii.eqb c sep); [reflexivity|].
  destruct (strings.Split s sep) as [|p r] eqn:Hs.
  - now destruct (Split_not_nil s sep).
  - cbn in *. now rewrite IH.
Qed.

(** [strings.Contains] with a substring of one byte: the byte occurs. *)
Lemma Contains_byte (s : string) (c : ascii) :
  strings.Contains s (String c "") = true <-> In c (list_ascii_of_string s).
Proof.
  induction s as [|x s IH]; cbn.
  - split; [discriminate | tauto].
  - destruct (ascii_dec c x) as [->|Hne].
    + destruct s; cbn; tauto.
    + rewrite IH. split; [tauto|]. intros [Heq|Hin]; [congruence | exact Hin].
Qed.

(** Without the separator a string splits into itself alone. *)
Lemma Split_without_sep (s : string) (sep : ascii) :
  strings.Contains s (String sep "") = false -> strings.Split s sep = [s].
Proof.
  induction s as [|x s IH]; cbn; [reflexivity|].
  destruct (ascii_dec sep x) as [->|Hne]; [destruct s; discriminate|].
  intros H. apply not_eq_sym, Ascii.eqb_neq in Hne.
  now rewrite Hne, (IH H).
Qed.

Lemma length_append (p s : string) :
  String.length (p ++ s) = String.length p + String.length s.
Proof. induction p as [|c p IH]; cbn; [reflexivity | now rewrite IH]. Qed.

Lemma substring_append_r (p s : string) :
  substring (String.length p) (String.length s) (p ++ s) = s.
Proof.
  induction p as [|c p IH]; cbn; [|exact IH].
  induction s as [|c s IHs]; cbn; [reflexivity|]. now rewrite IHs.
Qed.

Lemma substring_split (k : nat) (s : string) :
  k <= String.length s ->
  s = substring 0 k s ++ substring k (String.length s - k) s.
Proof.
  revert k. induction s as [|c s IH]; intros [|k] Hk; cbn in *;
    try reflexivity; try lia.
  - f_equal. clear. induction s as [|c s IH]; cbn; [reflexivity|]. now f_equal.
  - f_equal. apply IH. lia.
Qed.

(** [strings.HasSuffix] says that the string ends with the suffix. *)
Lemma HasSuffix_spec (s suffix : string) :
  strings.HasSuffix s suffix = true <-> exists p, s = p ++ suffix.
Proof.
  unfold strings.HasSuffix. rewrite andb_true_iff, Nat.leb_le, String.eqb_eq.
  split.
  - intros [Hlen Hsub].
    exists (substring 0 (String.length s - String.length suffix) s).
    pose proof (substring_split (String.length s - String.length suffix) s) as Hs.
    replace (String.length s - (String.length s - String.length suffix))
      with (String.length suffix) in Hs by lia.
    rewrite Hsub in Hs. apply Hs. lia.
  - intros [p ->]. rewrite length_append. split; [lia|].
    replace (String.length p + String.length suffix - String.length suffix)
      with (String.length p) by lia.
    apply substring_append_r.
Qed.

End StringFacts.

(** * The DNS-1123 check against the rules in words *)
Section DNS1123.

Import validation.

Lemma allChars_get (p : ascii -> bool) (s : string) :
  allChars p s = true <-> forall i c, String.get i s = Some c -> p c = true.
Proof.
  induction s as [|x s IH]; cbn.
  - split; [discriminate | reflexivity].
  - rewrite andb_true_iff, IH. split.
    + intros [Hx Hs] [|i] c Hget; [congruence | eauto].
    + intros H. split; [apply (H 0); reflexivity|].
      intros i c Hget. apply (H (S i)). exact Hget.
Qed.

Lemma get_last (c : ascii) (rest : string) :
  String.get (String.length (String c rest) - 1) (String c rest)
  = Some (lastChar c rest).
Proof.
  revert c. induction rest as [|x rest IH]; intros c; [reflexivity|].
  specialize (IH x). cbn in *. now rewrite Nat.sub_0_r in *.
Qed.

Lemma isLowerAlnum_hyphen (c : ascii) :
  isLowerAlnum c = true <-> isLabelChar c = true /\ c <> "-"%char.
Proof.
  unfold isLabelChar. destruct (Ascii.eqb_spec c "-") as [->|Hne].
  - split; [discriminate | intros [_ H]; now destruct H].
  - cbn. tauto.
Qed.

Lemma matchLabel_spec (label : string) : matchLabel label = true <-> Label label.
Proof.
  unfold Label. destruct label as [|c rest].
  - cbn. split; [discriminate | intros [H _]; now destruct H].
  - rewrite get_last. unfold matchLabel.
    rewrite !andb_true_iff, !isLowerAlnum_hyphen, allChars_get. split.
    + intros [[[Hc Hne] Hrest] [_ Hlast]]. repeat split.
      * discriminate.
      * intros [|i] x Hget; cbn in Hget; [congruence | eauto].
      * cbn. congruence.
      * congruence.
    + intros (_ & Hall & Hfirst & Hlast).
      assert (Hin : forall x, lastChar c rest = x -> isLabelChar x = true).
      { intros x <-. apply (Hall (String.length (String c rest) - 1)), get_last. }
      repeat split.
      * apply (Hall 0). reflexivity.
      * intros ->. now apply Hfirst.
      * intros i x Hget. apply (Hall (S i)). exact Hget.
      * now apply Hin.
      * intros Heq. apply Hlast. now rewrite Heq.
Qed.

(** The check as the library runs it agrees with the rules as the
    specification words them. *)
Lemma IsDNS1123Subdomain_spec (value : string) :
  IsDNS1123Subdomain value = [] <-> DNS1123Subdomain value.
Proof.
  unfold IsDNS1123Subdomain, DNS1123Subdomain, DNS1123SubdomainMaxLength,
    matchSubdomain.
  rewrite Forall_forall.
  destruct (Nat.ltb_spec 253 (String.length value)) as [Hlong|Hshort].
  - split; [discriminate | lia].
  - destruct (forallb matchLabel (strings.Split value ".")) eqn:Hall; cbn.
    + rewrite forallb_forall in Hall. split; [|reflexivity].
      intros _. split; [exact Hshort|].
      intros l Hl. now apply matchLabel_spec, Hall.
    + split; [discriminate|]. intros [_ H].
      assert (forallb matchLabel (strings.Split value ".") = true) as Hc.
      { apply forallb_forall. intros l Hl. now apply matchLabel_spec, H. }
      congruence.
Qed.

End DNS1123.

(** * The URL parser on the function's addresses *)
Section GoURL.

Lemma registerURLBase_origin (organizations teams : string) :
  String.prefix (gourl.origin ++ "/") (registerURLBase organizations teams) = true.
Proof.
  unfold registerURLBase.
  destruct (negb (organizations =? "") && negb (strings.Contains organizations ","));
    [reflexivity|].
  destruct (negb (teams =? "") && negb (strings.Contains teams ",")); reflexivity.
Qed.

Lemma plain_append (x y : string) :
  gourl.plain (x ++ y) = gourl.plain x && gourl.plain y.
Proof.
  unfold gourl.plain. induction x as [|c x IH]; cbn; [reflexivity|].
  now rewrite IH, andb_assoc.
Qed.

Lemma plain_beforeFirst (s : string) (sep : ascii) :
  gourl.plain s = true -> gourl.plain (beforeFirst sep s) = true.
Proof.
  unfold gourl.plain. induction s as [|c s IH]; cbn; [reflexivity|].
  intros H. apply andb_true_iff in H as [Hc Hs].
  destruct (Ascii.eqb c sep); cbn; [reflexivity|]. now rewrite Hc, IH.
Qed.

Lemma Cut_plain (s : string) (sep : ascii) :
  (forall c, gourl.plainByte c = true -> c <> sep) ->
  gourl.plain s = true -> gourl.Cut s sep = (s, None).
Proof.
  intros Hsep. unfold gourl.plain. induction s as [|c s IH]; cbn; [reflexivity|].
  intros H. apply andb_true_iff in H as [Hc Hs].
  apply Hsep, Ascii.eqb_neq in Hc. rewrite Hc. now rewrite (IH Hs).
Qed.

Lemma plain_no_CTL (s : string) :
  gourl.plain s = true -> gourl.stringContainsCTLByte s = false.
Proof.
  unfold gourl.plain. induction s as [|c s IH]; cbn; [reflexivity|].
  intros H. apply andb_true_iff in H as [Hc Hs]. rewrite (IH Hs).
  unfold gourl.plainByte in Hc. rewrite !andb_true_iff in Hc.
  destruct Hc as [[[Hc _] _] _]. apply negb_true_iff in Hc. now rewrite Hc.
Qed.

Lemma unescape_plain (s : string) :
  gourl.plain s = true -> gourl.unescape s = Some s.
Proof.
  unfold gourl.plain. induction s as [|c s IH]; cbn [validation.allChars gourl.unescape];
    [reflexivity|].
  intros H. apply andb_true_iff in H as [Hc Hs].
  unfold gourl.plainByte in Hc. rewrite !andb_true_iff in Hc.
  destruct Hc as [_ Hc]. apply negb_true_iff in Hc. rewrite Hc.
  now rewrite (IH Hs).
Qed.

(** A plain path after the origin is parsed as it is. *)
Lemma Parse_plain (path : string) :
  gourl.plain path = true ->
  gourl.Parse (gourl.origin ++ "/" ++ path)
  = inr (url.mkURL "https" "github.com" ("/" ++ path) "" "").
Proof.
  intros Hp.
  assert (Hall : gourl.plain (gourl.origin ++ "/" ++ path) = true).
  { rewrite !plain_append, Hp. reflexivity. }
  unfold gourl.Parse.
  rewrite (Cut_plain _ "#") by
    (assumption || (intros c Hc ->; discriminate Hc)).
  rewrite (plain_no_CTL _ Hall).
  change (gourl.origin ++ "/" ++ path)
    with ((gourl.origin ++ "/") ++ path) at 1.
  assert (Hpre : String.prefix (gourl.origin ++ "/")
                   ((gourl.origin ++ "/") ++ path) = true).
  { cbn. now destruct path. }
  cbn [negb] in *. rewrite Hpre. cbn [negb].
  change (gourl.dropBytes (String.length gourl.origin) (gourl.origin ++ "/" ++ path))
    with ("/" ++ path).
  assert (Hrest : gourl.plain ("/" ++ path) = true)
    by (rewrite plain_append, Hp; reflexivity).
  rewrite (Cut_plain _ "?") by
    (assumption || (intros c Hc ->; discriminate Hc)).
  now rewrite (unescape_plain _ Hrest).
Qed.

(** The page of an organization with a plain name is a plain path. *)
Lemma plain_scoped (name : string) :
  gourl.plain name = true ->
  gourl.plain ("organizations/" ++ name ++ "/settings/applications/new") = true.
Proof. intros Hn. now rewrite !plain_append, Hn. Qed.

End GoURL.

(** * The function *)
Section Run.

Context {E : Externals}.

(** Running a block on symbolic input: unfold the control operators, then
    split on what the next step of the run depends on, in program order. *)
Ltac run_red H :=
  change (strings.Contains "" "/") with false in H;
  change ("" =? "") with true in H;
  lazy beta iota zeta delta
    [interactive call bind pure Return fmt.Println survey.AskOne
     stdin stdout andb orb negb
     args.clientID args.clientSecret args.githubOrganizations args.githubTeams
     args.githubHostname args.mappingMethod] in H.

Ltac head_scrutinee tm :=
  match tm with
  | match ?x with _ => _ end => head_scrutinee x
  | match ?x with _ => _ end => constr:(x)
  | ?f _ => head_scrutinee f
  end.

Ltac run_case H :=
  lazymatch type of H with
  | ?lhs = _ => let s := head_scrutinee lhs in destruct s eqn:?
  end.

Ltac eqb_facts :=
  repeat match goal with
  | H : (_ =? _) = true |- _ => apply String.eqb_eq in H
  | H : (_ =? _) = false |- _ => apply String.eqb_neq in H
  end.

Ltac run_paths H :=
  run_red H; run_red H; repeat (run_case H; run_red H);
  inversion H; subst; clear H; eqb_facts; subst;
  try (exfalso; congruence).

Ltac flags a t :=
  destruct a as [cid sec o tm h mm], t as [replies out];
  cbn [args.clientID args.clientSecret args.githubOrganizations args.githubTeams
       args.githubHostname args.mappingMethod stdin stdout] in *.

(** [buildGithubIdp] is the conflict check, then the interactive block when
    the mode asks for it, then the assembly. *)
Lemma buildGithubIdp_blocks (a : args.t) (cluster : Cluster) (idpName : string)
    (t : Terminal) :
  buildGithubIdp a cluster idpName t =
    if negb (args.githubOrganizations a =? "") && negb (args.githubTeams a =? "")
    then ((cmv1.zero,
           Some (errors_New "GitHub IDP only allows either organizations or teams, but not both")),
          t)
    else if isInteractive (args.clientID a) (args.clientSecret a)
                          (args.githubOrganizations a) (args.githubTeams a)
    then match interactive a cluster idpName t with
         | (inl (clientID, clientSecret, organizations, teams), t') =>
             (assemble a idpName clientID clientSecret organizations teams, t')
         | (inr r, t') => (r, t')
         end
    else (assemble a idpName (args.clientID a) (args.clientSecret a)
                   (args.githubOrganizations a) (args.githubTeams a), t).
Proof.
  unfold buildGithubIdp, call.
  destruct (negb (args.githubOrganizations a =? "") && negb (args.githubTeams a =? ""));
    [reflexivity|].
  unfold assemble, attach, finish, aliasesGithub, invalidHostname, githubHostname,
    fmt.Sprintf_s.
  destruct (isInteractive _ _ _ _).
  - lazy beta iota zeta delta [interactive bind pure Return].
    match goal with
    | |- _ = match ?m with _ => _ end => destruct m as [[[[[c s] o'] tm']|r] t']
    end; [|reflexivity].
    destruct (args.githubHostname a =? ""); [reflexivity|].
    destruct (isValidHostname (args.githubHostname a)); [|reflexivity].
    cbn [negb].
    destruct ((args.githubHostname a =? "github.com")
              || strings.HasSuffix (args.githubHostname a) ".github.com");
      reflexivity.
  - lazy beta iota zeta delta [bind pure Return].
    destruct (args.githubHostname a =? ""); [reflexivity|].
    destruct (isValidHostname (args.githubHostname a)); [|reflexivity].
    cbn [negb].
    destruct ((args.githubHostname a =? "github.com")
              || strings.HasSuffix (args.githubHostname a) ".github.com");
      reflexivity.
Qed.

(** The interactive block returns from the function only with an error of
    a prompt or of the URL, and the builder untouched. *)
Lemma interactive_return (a : args.t) (cluster : Cluster) (idpName : string)
    (t t' : Terminal) (r : Result) :
  interactive a cluster idpName t = (inr r, t') ->
  exists e, r = (cmv1.zero, Some e) /\ (InputError e \/ URLError e).
Proof.
  intros H. flags a t.
  run_paths H; eexists; (split; [reflexivity|]); unfold InputError, URLError; eauto.
Qed.

(** When it goes on, organizations and teams are the resolved strings, and
    a client ID or secret given by flag is kept. *)
Lemma interactive_values (a : args.t) (cluster : Cluster) (idpName : string)
    (t t' : Terminal) (clientID clientSecret organizations teams : string) :
  interactive a cluster idpName t
  = (inl (clientID, clientSecret, organizations, teams), t') ->
  (organizations, teams) = resolved a t
  /\ (args.clientID a <> "" -> clientID = args.clientID a)
  /\ (args.clientSecret a <> "" -> clientSecret = args.clientSecret a).
Proof.
  intros H. flags a t. unfold resolved.
  cbn [args.clientID args.clientSecret args.githubOrganizations args.githubTeams
       stdin].
  run_paths H; cbn;
    repeat match goal with
    | Hc : strings.Contains _ _ = _ |- _ => rewrite Hc
    end;
    repeat split; congruence.
Qed.

Ltac use_facts :=
  repeat match goal with
  | Hc : strings.Contains _ _ = _ |- _ => rewrite Hc
  | Hc : url_Parse _ = _ |- _ => rewrite Hc
  end.

Ltac flatten_output :=
  repeat rewrite <- app_assoc; cbn [app].

(** The block starts by printing its first line. *)
Lemma interactive_intro (a : args.t) (cluster : Cluster) (idpName : string)
    (t t' : Terminal) x :
  interactive a cluster idpName t = (x, t') ->
  exists more, stdout t' = (stdout t ++ Printed introLine :: more)%list.
Proof.
  intros H. flags a t.
  run_paths H; cbn [stdout]; flatten_output; eexists; reflexivity.
Qed.

(** The combined prompt aborted, or the input at its end. *)
Lemma interactive_abort (a : args.t) (cluster : Cluster) (idpName : string)
    (t : Terminal) :
  args.githubOrganizations a = "" -> args.githubTeams a = "" ->
  (stdin t = [] \/ exists rest, stdin t = None :: rest) ->
  interactive a cluster idpName t
  = (inr (cmv1.zero, Some expectedOrganization),
     mkTerminal (tl (stdin t))
                (stdout t ++ [Printed introLine; Asked organizationsPrompt])%list).
Proof.
  intros Ho Ht Hin. flags a t. subst o tm.
  destruct Hin as [->|[rest ->]]; cbn; flatten_output; reflexivity.
Qed.

(** The combined prompt answered: shown once, and whatever comes next is
    not its error. *)
Lemma interactive_answer (a : args.t) (cluster : Cluster) (idpName : string)
    (t t' : Terminal) (answer : string) (rest : list (option string)) x :
  args.githubOrganizations a = "" -> args.githubTeams a = "" ->
  stdin t = Some answer :: rest ->
  interactive a cluster idpName t = (x, t') ->
  x <> inr (cmv1.zero, Some expectedOrganization)
  /\ exists more,
       stdout t' = (stdout t ++ [Printed introLine; Asked organizationsPrompt] ++ more)%list
       /\ ~ In (Asked organizationsPrompt) more.
Proof.
  intros Ho Ht Hin H. flags a t. subst o tm replies.
  run_paths H; (split; [discriminate|]); cbn [stdout]; flatten_output;
    eexists; (split; [reflexivity|]); cbn;
    intuition discriminate.
Qed.

(** Without the combined prompt the block asks for credentials only. *)
Lemma interactive_no_combined_prompt (a : args.t) (cluster : Cluster)
    (idpName : string) (t t' : Terminal) x :
  ~ (args.githubOrganizations a = "" /\ args.githubTeams a = "") ->
  interactive a cluster idpName t = (x, t') ->
  exists more,
    stdout t' = (stdout t ++ more)%list /\ ~ In (Asked organizationsPrompt) more.
Proof.
  intros Hno H. flags a t.
  run_paths H; try (now destruct Hno); cbn [stdout]; flatten_output;
    eexists; (split; [reflexivity|]); cbn; intuition discriminate.
Qed.

(** The URL the block parses is the base for the resolved strings; a parse
    error ends the function, a parsed URL is shown. *)
Lemma interactive_url (a : args.t) (cluster : Cluster) (idpName : string)
    (t t' : Terminal) x :
  interactive a cluster idpName t = (x, t') ->
  x <> inr (cmv1.zero, Some expectedOrganization) ->
  match url_Parse (registerURLBase (fst (resolved a t)) (snd (resolved a t))) with
  | inl err => x = inr (cmv1.zero, Some (fmt_Errorf "Error parsing URL: %v" [err]))
  | inr registerURL =>
      exists before after,
        stdout t' = (stdout t ++ before
                     ++ Printed (openURLLine cluster idpName registerURL) :: after)%list
  end.
Proof.
  intros H Hx. flags a t. unfold resolved, openURLLine.
  cbn [args.githubOrganizations args.githubTeams stdin].
  run_paths H; try (now destruct Hx);
    cbn -[registerURLBase]; use_facts; cbn -[registerURLBase]; use_facts;
    try reflexivity;
    flatten_output;
    first [ exists [Printed introLine]; eexists; reflexivity
          | exists [Printed introLine; Asked organizationsPrompt]; eexists;
            reflexivity ].
Qed.

(** The hostname is the real GitHub domain or below it, in words. *)
Lemma aliasesGithub_spec (hostname : string) :
  aliasesGithub hostname = true
  <-> hostname = "github.com" \/ exists p, hostname = p ++ ".github.com".
Proof.
  unfold aliasesGithub. now rewrite orb_true_iff, String.eqb_eq, HasSuffix_spec.
Qed.

(** [isValidHostname] in the words of the specification. *)
Lemma isValidHostname_spec (hostname : string) :
  isValidHostname hostname = true
  <-> DNS1123Subdomain hostname \/ netutils_ParseIPSloppy hostname <> None.
Proof.
  unfold isValidHostname. rewrite orb_true_iff, <- IsDNS1123Subdomain_spec.
  destruct (validation.IsDNS1123Subdomain hostname);
    destruct (netutils_ParseIPSloppy hostname); cbn; intuition congruence.
Qed.

(** The assembly succeeds exactly when no hostname is given or the one
    given passes both checks. *)
Lemma assemble_success_iff (a : args.t)
    (idpName clientID clientSecret organizations teams : string) :
  snd (assemble a idpName clientID clientSecret organizations teams) = None
  <-> args.githubHostname a = ""
      \/ (isValidHostname (args.githubHostname a) = true
          /\ aliasesGithub (args.githubHostname a) = false).
Proof.
  unfold assemble.
  destruct (String.eqb_spec (args.githubHostname a) "") as [->|Hne];
    [cbn; tauto|].
  destruct (isValidHostname (args.githubHostname a));
    destruct (aliasesGithub (args.githubHostname a)); cbn;
    intuition (congruence || discriminate).
Qed.

(** What a successful assembly holds. *)
Lemma assemble_success (a : args.t)
    (idpName clientID clientSecret organizations teams : string)
    (b : cmv1.IdentityProviderBuilder) :
  assemble a idpName clientID clientSecret organizations teams = (b, None) ->
  exists g,
    b = cmv1.mkIdp (Some "GithubIdentityProvider") (Some idpName)
                   (Some (args.mappingMethod a)) (Some g)
    /\ cmv1.clientID g = Some clientID
    /\ cmv1.clientSecret g = Some clientSecret
    /\ cmv1.hostname g
       = (if args.githubHostname a =? "" then None else Some (args.githubHostname a))
    /\ cmv1.organizations g
       = (if organizations =? "" then None
          else Some (strings.Split organizations ","))
    /\ cmv1.teams g
       = (if organizations =? "" then
            if teams =? "" then None else Some (strings.Split teams ",")
          else None).
Proof.
  unfold assemble, attach, finish.
  destruct (args.githubHostname a =? "");
    [|destruct (isValidHostname (args.githubHostname a)); [|discriminate];
      destruct (aliasesGithub (args.githubHostname a)); [discriminate|]];
    cbn [negb]; intros [= <-]; eexists; (split; [reflexivity|]);
    destruct (organizations =? ""); destruct (teams =? ""); cbn;
    repeat split.
Qed.

(** A failed assembly is a refused hostname, and the builder is untouched. *)
Lemma assemble_failure (a : args.t)
    (idpName clientID clientSecret organizations teams : string)
    (b : cmv1.IdentityProviderBuilder) (e : error) :
  assemble a idpName clientID clientSecret organizations teams = (b, Some e) ->
  b = cmv1.zero
  /\ args.githubHostname a <> ""
  /\ ((isValidHostname (args.githubHostname a) = false
       /\ e = invalidHostname (args.githubHostname a))
      \/ (isValidHostname (args.githubHostname a) = true
          /\ aliasesGithub (args.githubHostname a) = true
          /\ e = githubHostname (args.githubHostname a))).
Proof.
  unfold assemble.
  destruct (String.eqb_spec (args.githubHostname a) "") as [Heq|Hne];
    [discriminate|].
  destruct (isValidHostname (args.githubHostname a)); cbn [negb];
    [destruct (aliasesGithub (args.githubHostname a)); [|discriminate]|];
    intros [= <- <-]; repeat split; auto.
Qed.

Lemma run_path (a : args.t) (cluster : Cluster) (idpName : string)
    (t t' : Terminal) (r : Result) :
  buildGithubIdp a cluster idpName t = (r, t') -> Path a cluster idpName t r t'.
Proof.
  rewrite buildGithubIdp_blocks.
  destruct (String.eqb_spec (args.githubOrganizations a) "") as [Ho|Ho];
    destruct (String.eqb_spec (args.githubTeams a) "") as [Ht|Ht]; cbn [negb andb];
    try (intros [= <- <-]; now apply conflict);
    (destruct (isInteractive _ _ _ _) eqn:Hmode;
     [|intros [= <- <-]; apply batch; [tauto | exact Hmode]]);
    (destruct (interactive a cluster idpName t) as [[[[[c s] o'] tm']|r0] t0] eqn:Hi;
     intros [= <- <-];
     [ eapply collected; eauto; try tauto; now apply interactive_values in Hi
     | destruct (interactive_return _ _ _ _ _ _ Hi) as (e & -> & He);
       apply stopped; tauto ]).
Qed.

(** C1: organizations and teams both given is refused at once, whatever the
    other inputs, with the terminal untouched: nothing printed, no prompt
    shown, no reply consumed. *)
Theorem conflict_before_prompting (a : args.t) (cluster : Cluster)
    (idpName : string) (t : Terminal) :
  args.githubOrganizations a <> "" ->
  args.githubTeams a <> "" ->
  exists e, ConflictError e
            /\ buildGithubIdp a cluster idpName t = ((cmv1.zero, Some e), t).
Proof.
  intros Ho Ht. exists conflictError. split; [reflexivity|].
  apply String.eqb_neq in Ho, Ht.
  rewrite buildGithubIdp_blocks. now rewrite Ho, Ht.
Qed.

(** C3: the mode is a function of the four strings, true exactly when the
    client ID is empty, or the client secret is empty, or organizations and
    teams are both empty.  In batch mode the terminal is left as it was: no
    line printed, no prompt shown, no reply consumed; that is the case in
    particular when client ID, client secret and one of organizations and
    teams are all given.  In interactive mode (no conflict) the block is
    entered: its first line is printed. *)
Theorem mode_resolver (a : args.t) (cluster : Cluster) (idpName : string)
    (t : Terminal) :
  let mode := isInteractive (args.clientID a) (args.clientSecret a)
                            (args.githubOrganizations a) (args.githubTeams a) in
  (mode = true
   <-> args.clientID a = "" \/ args.clientSecret a = ""
       \/ (args.githubOrganizations a = "" /\ args.githubTeams a = ""))
  /\ (mode = false -> snd (buildGithubIdp a cluster idpName t) = t)
  /\ (args.clientID a <> "" -> args.clientSecret a <> "" ->
      args.githubOrganizations a <> "" \/ args.githubTeams a <> "" ->
      snd (buildGithubIdp a cluster idpName t) = t)
  /\ (mode = true ->
      ~ (args.githubOrganizations a <> "" /\ args.githubTeams a <> "") ->
      exists more,
        stdout (snd (buildGithubIdp a cluster idpName t))
        = (stdout t ++ Printed introLine :: more)%list).
Proof.
  assert (Hiff :
    isInteractive (args.clientID a) (args.clientSecret a)
                  (args.githubOrganizations a) (args.githubTeams a) = true
    <-> args.clientID a = "" \/ args.clientSecret a = ""
        \/ (args.githubOrganizations a = "" /\ args.githubTeams a = "")).
  { unfold isInteractive.
    now rewrite !orb_true_iff, andb_true_iff, !String.eqb_eq, or_assoc. }
  assert (Hbatch :
    isInteractive (args.clientID a) (args.clientSecret a)
                  (args.githubOrganizations a) (args.githubTeams a) = false ->
    snd (buildGithubIdp a cluster idpName t) = t).
  { intros Hmode.
    destruct (buildGithubIdp a cluster idpName t) as [r t'] eqn:Hrun.
    apply run_path in Hrun. destruct Hrun; cbn; congruence. }
  cbv zeta. split; [exact Hiff|]. split; [exact Hbatch|]. split.
  - intros Hc Hs Hot. apply Hbatch.
    destruct (isInteractive _ _ _ _); [|reflexivity].
    exfalso. destruct Hiff as [Hiff _]. specialize (Hiff eq_refl). tauto.
  - intros Hmode Hno.
    destruct (buildGithubIdp a cluster idpName t) as [r t'] eqn:Hrun.
    apply run_path in Hrun. cbn [snd].
    destruct Hrun as [Ho Ht| _ Hb | e t' _ _ Hi _ | c s o' tm' t' _ _ Hi _];
      [tauto | congruence | |]; eapply interactive_intro; exact Hi.
Qed.

(** C8: a run ends either with no error and a builder that has the provider
    type tag, the idp name, the mapping method and the GitHub part with its
    client ID and secret, or with an error and the zero-value builder. *)
Theorem atomic (a : args.t) (cluster : Cluster) (idpName : string) (t : Terminal) :
  (exists g clientID clientSecret,
      fst (buildGithubIdp a cluster idpName t)
      = (cmv1.mkIdp (Some "GithubIdentityProvider") (Some idpName)
                    (Some (args.mappingMethod a)) (Some g), None)
      /\ cmv1.clientID g = Some clientID
      /\ cmv1.clientSecret g = Some clientSecret)
  \/ (exists e, fst (buildGithubIdp a cluster idpName t) = (cmv1.zero, Some e)).
Proof.
  assert (Hassemble : forall c s o' tm',
    (exists g clientID clientSecret,
        assemble a idpName c s o' tm'
        = (cmv1.mkIdp (Some "GithubIdentityProvider") (Some idpName)
                      (Some (args.mappingMethod a)) (Some g), None)
        /\ cmv1.clientID g = Some clientID
        /\ cmv1.clientSecret g = Some clientSecret)
    \/ (exists e, assemble a idpName c s o' tm' = (cmv1.zero, Some e))).
  { intros c s o' tm'.
    destruct (assemble a idpName c s o' tm') as [b [e|]] eqn:Ha.
    - right. apply assemble_failure in Ha as [-> _]. now exists e.
    - left. apply assemble_success in Ha as (g & -> & Hc & Hs & _).
      now exists g, c, s. }
  destruct (buildGithubIdp a cluster idpName t) as [r t'] eqn:Hrun.
  apply run_path in Hrun. cbn [fst].
  destruct Hrun; auto; right; eexists; reflexivity.
Qed.

(** A successful run is a successful assembly of the strings of its mode:
    the flags in batch mode, the resolved strings in interactive mode. *)
Lemma success_assembled (a : args.t) (cluster : Cluster) (idpName : string)
    (t t' : Terminal) (b : cmv1.IdentityProviderBuilder) :
  buildGithubIdp a cluster idpName t = ((b, None), t') ->
  let ot :=
    if isInteractive (args.clientID a) (args.clientSecret a)
                     (args.githubOrganizations a) (args.githubTeams a)
    then resolved a t
    else (args.githubOrganizations a, args.githubTeams a) in
  exists clientID clientSecret,
    assemble a idpName clientID clientSecret (fst ot) (snd ot) = (b, None).
Proof.
  intros Hrun. apply run_path in Hrun.
  remember (b, None) as r eqn:Hr.
  destruct Hrun as [Ho Ht| _ Hb | e t' _ _ Hi _ | c s o' tm' t' _ Hmode Hi Hres];
    try discriminate; cbv zeta.
  - rewrite Hb. eauto.
  - rewrite Hmode, <- Hres. eauto.
Qed.

(** What a successful run attaches: the comma-split of the organizations
    string if that is not empty, else the comma-split of the teams string if
    that is not empty, else nothing. *)
Lemma success_reads (a : args.t) (cluster : Cluster) (idpName : string)
    (t t' : Terminal) (b : cmv1.IdentityProviderBuilder) :
  buildGithubIdp a cluster idpName t = ((b, None), t') ->
  let ot :=
    if isInteractive (args.clientID a) (args.clientSecret a)
                     (args.githubOrganizations a) (args.githubTeams a)
    then resolved a t
    else (args.githubOrganizations a, args.githubTeams a) in
  readOrganizations b
  = (if fst ot =? "" then None else Some (strings.Split (fst ot) ","))
  /\ readTeams b
     = (if fst ot =? "" then
          if snd ot =? "" then None else Some (strings.Split (snd ot) ",")
        else None).
Proof.
  intros Hrun. apply success_assembled in Hrun. cbv zeta in *. revert Hrun.
  destruct (if isInteractive _ _ _ _ then resolved a t else _) as [o' tm'].
  cbn [fst snd]. intros (c & s & Ha).
  apply assemble_success in Ha as (g & -> & _ & _ & _ & Ho & Ht).
  unfold readOrganizations, readTeams. cbn [cmv1.github]. now rewrite Ho, Ht.
Qed.

(** C9: a configuration that was produced carries the comma-split
    organizations, or the comma-split teams, or neither, and never both;
    which one is decided by the organizations and teams strings of the
    run's mode (the flags in batch mode, the resolved strings in
    interactive mode, whatever was answered). *)
Theorem organizations_xor_teams (a : args.t) (cluster : Cluster)
    (idpName : string) (t t' : Terminal) (b : cmv1.IdentityProviderBuilder) :
  buildGithubIdp a cluster idpName t = ((b, None), t') ->
  let ot :=
    if isInteractive (args.clientID a) (args.clientSecret a)
                     (args.githubOrganizations a) (args.githubTeams a)
    then resolved a t
    else (args.githubOrganizations a, args.githubTeams a) in
  (fst ot <> ""
   /\ readOrganizations b = Some (strings.Split (fst ot) ",")
   /\ readTeams b = None)
  \/ (fst ot = "" /\ snd ot <> ""
      /\ readOrganizations b = None
      /\ readTeams b = Some (strings.Split (snd ot) ","))
  \/ (fst ot = "" /\ snd ot = ""
      /\ readOrganizations b = None /\ readTeams b = None).
Proof.
  intros Hrun. apply success_reads in Hrun. cbv zeta in *. revert Hrun.
  destruct (if isInteractive _ _ _ _ then resolved a t else _) as [o' tm'].
  cbn [fst snd]. intros [-> ->].
  destruct (String.eqb_spec o' ""); [destruct (String.eqb_spec tm' "")|]; tauto.
Qed.

Lemma assemble_mappingMethod (a : args.t) (m : string)
    (idpName clientID clientSecret organizations teams : string) :
  assemble (withMappingMethod m a) idpName clientID clientSecret organizations teams
  = match assemble a idpName clientID clientSecret organizations teams with
    | (b, None) => (cmv1.MappingMethod m b, None)
    | other => other
    end.
Proof.
  unfold assemble, finish. cbn [withMappingMethod args.githubHostname args.mappingMethod].
  destruct (args.githubHostname a =? ""); [reflexivity|].
  destruct (isValidHostname (args.githubHostname a)); [|reflexivity].
  destruct (aliasesGithub (args.githubHostname a)); reflexivity.
Qed.

(** The mapping method is read in one place, the call that stores it. *)
Lemma run_mappingMethod (a : args.t) (m : string) (cluster : Cluster)
    (idpName : string) (t : Terminal) :
  buildGithubIdp (withMappingMethod m a) cluster idpName t
  = match buildGithubIdp a cluster idpName t with
    | ((b, None), t') => ((cmv1.MappingMethod m b, None), t')
    | other => other
    end.
Proof.
  rewrite !buildGithubIdp_blocks.
  cbn [withMappingMethod args.clientID args.clientSecret args.githubOrganizations
       args.githubTeams].
  destruct (negb (args.githubOrganizations a =? "") && negb (args.githubTeams a =? ""));
    [reflexivity|].
  change (interactive (withMappingMethod m a) cluster idpName t)
    with (interactive a cluster idpName t).
  destruct (isInteractive _ _ _ _).
  - destruct (interactive a cluster idpName t) as [[[[[c s] o'] tm']|r] t'] eqn:Hi.
    + rewrite assemble_mappingMethod.
      now destruct (assemble a idpName c s o' tm') as [b [e|]].
    + destruct (interactive_return _ _ _ _ _ _ Hi) as (e & -> & _). reflexivity.
  - rewrite assemble_mappingMethod.
    now destruct (assemble a idpName _ _ _ _) as [b [e|]].
Qed.

(** C10: whatever string is given as the mapping method, the run ends with
    the same error or absence of error and the same terminal as with any
    other, and a configuration that is produced holds the string as it was
    given. *)
Theorem mapping_method_unchecked (a : args.t) (m : string) (cluster : Cluster)
    (idpName : string) (t : Terminal) :
  snd (fst (buildGithubIdp (withMappingMethod m a) cluster idpName t))
  = snd (fst (buildGithubIdp a cluster idpName t))
  /\ snd (buildGithubIdp (withMappingMethod m a) cluster idpName t)
     = snd (buildGithubIdp a cluster idpName t)
  /\ (snd (fst (buildGithubIdp (withMappingMethod m a) cluster idpName t)) = None ->
      cmv1.mappingMethod
        (fst (fst (buildGithubIdp (withMappingMethod m a) cluster idpName t)))
      = Some m).
Proof.
  rewrite run_mappingMethod.
  destruct (buildGithubIdp a cluster idpName t) as [[b [e|]] t']; cbn;
    repeat split; congruence.
Qed.

Lemma withHostname_own (a : args.t) : withHostname (args.githubHostname a) a = a.
Proof. now destruct a. Qed.

Lemma assemble_hostname (a : args.t) (hostname : string)
    (idpName clientID clientSecret organizations teams : string) :
  hostname <> "" ->
  assemble (withHostname hostname a) idpName clientID clientSecret organizations teams
  = match assemble (withHostname "" a) idpName clientID clientSecret
                   organizations teams with
    | (b, None) =>
        if negb (isValidHostname hostname) then
          (cmv1.zero, Some (invalidHostname hostname))
        else if aliasesGithub hostname then
          (cmv1.zero, Some (githubHostname hostname))
        else (onGithub (cmv1.Hostname hostname) b, None)
    | other => other
    end.
Proof.
  intros Hne. apply String.eqb_neq in Hne.
  unfold assemble, finish, attach, onGithub.
  cbn [withHostname args.githubHostname args.mappingMethod].
  rewrite Hne. change ("" =? "") with true. cbn iota.
  destruct (isValidHostname hostname); [|reflexivity]. cbn [negb].
  destruct (aliasesGithub hostname); [reflexivity|].
  destruct (organizations =? ""); destruct (teams =? ""); reflexivity.
Qed.

(** The hostname is looked at last: a run with a hostname is the run
    without it, followed, if that one succeeds, by the two hostname
    checks. *)
Lemma run_hostname (a : args.t) (hostname : string) (cluster : Cluster)
    (idpName : string) (t : Terminal) :
  hostname <> "" ->
  buildGithubIdp (withHostname hostname a) cluster idpName t
  = match buildGithubIdp (withHostname "" a) cluster idpName t with
    | ((b, None), t') =>
        if negb (isValidHostname hostname) then
          ((cmv1.zero, Some (invalidHostname hostname)), t')
        else if aliasesGithub hostname then
          ((cmv1.zero, Some (githubHostname hostname)), t')
        else ((onGithub (cmv1.Hostname hostname) b, None), t')
    | other => other
    end.
Proof.
  intros Hne. rewrite !buildGithubIdp_blocks.
  cbn [withHostname args.clientID args.clientSecret args.githubOrganizations
       args.githubTeams].
  destruct (negb (args.githubOrganizations a =? "") && negb (args.githubTeams a =? ""));
    [reflexivity|].
  change (interactive (withHostname hostname a) cluster idpName t)
    with (interactive (withHostname "" a) cluster idpName t).
  destruct (isInteractive _ _ _ _).
  - destruct (interactive (withHostname "" a) cluster idpName t)
      as [[[[[c s] o'] tm']|r] t'] eqn:Hi.
    + rewrite (assemble_hostname a hostname) by assumption.
      destruct (assemble (withHostname "" a) idpName c s o' tm') as [b [e|]];
        [reflexivity|].
      destruct (isValidHostname hostname); [|reflexivity].
      now destruct (aliasesGithub hostname).
    + destruct (interactive_return _ _ _ _ _ _ Hi) as (e & -> & _). reflexivity.
  - rewrite (assemble_hostname a hostname) by assumption.
    destruct (assemble (withHostname "" a) idpName _ _ _ _) as [b [e|]];
      [reflexivity|].
    destruct (isValidHostname hostname); [|reflexivity].
    now destruct (aliasesGithub hostname).
Qed.

(** Without a hostname the only errors are those of the conflict check, of
    the prompts and of the URL. *)
Lemma run_without_hostname (a : args.t) (cluster : Cluster) (idpName : string)
    (t : Terminal) :
  match buildGithubIdp (withHostname "" a) cluster idpName t with
  | ((b, None), _) => cmv1.github b <> None /\ readHostname b = None
  | ((b, Some e), _) =>
      b = cmv1.zero /\ (ConflictError e \/ InputError e \/ URLError e)
  end.
Proof.
  destruct (buildGithubIdp (withHostname "" a) cluster idpName t)
    as [[b e] t'] eqn:Hrun.
  apply run_path in Hrun.
  assert (Ha : forall c s o' tm',
    assemble (withHostname "" a) idpName c s o' tm' = (b, e) ->
    match e with
    | None => cmv1.github b <> None /\ readHostname b = None
    | Some e => b = cmv1.zero /\ (ConflictError e \/ InputError e \/ URLError e)
    end).
  { intros c s o' tm' H. destruct e as [e|].
    - apply assemble_failure in H as (_ & Hne & _). now destruct Hne.
    - apply assemble_success in H as (g & -> & _ & _ & Hh & _).
      unfold readHostname. cbn. split; [discriminate | exact Hh]. }
  remember (b, e) as r eqn:Hr.
  destruct Hrun; try (eapply Ha; now symmetry);
    injection Hr as <- <-; split; auto; unfold ConflictError, conflictError; tauto.
Qed.

(** C4, amended: a hostname that is given, on inputs that pass without it,
    is accepted exactly when it is a DNS-1123 subdomain or an IP address
    and is not the GitHub domain or below it; then the configuration holds
    it unchanged, and otherwise the run fails with a hostname error
    carrying it and the builder untouched.  The terminal is the same in
    both cases. *)
Theorem hostname_accepted_iff (a : args.t) (hostname : string) (cluster : Cluster)
    (idpName : string) (t : Terminal) :
  hostname <> "" ->
  snd (fst (buildGithubIdp (withHostname "" a) cluster idpName t)) = None ->
  (snd (fst (buildGithubIdp (withHostname hostname a) cluster idpName t)) = None
   <-> (DNS1123Subdomain hostname \/ netutils_ParseIPSloppy hostname <> None)
       /\ ~ (hostname = "github.com" \/ exists p, hostname = p ++ ".github.com"))
  /\ (snd (fst (buildGithubIdp (withHostname hostname a) cluster idpName t)) = None ->
      readHostname (fst (fst (buildGithubIdp (withHostname hostname a) cluster idpName t)))
      = Some hostname)
  /\ (snd (fst (buildGithubIdp (withHostname hostname a) cluster idpName t)) <> None ->
      exists e,
        fst (buildGithubIdp (withHostname hostname a) cluster idpName t)
        = (cmv1.zero, Some e)
        /\ ValidationError hostname e)
  /\ snd (buildGithubIdp (withHostname hostname a) cluster idpName t)
     = snd (buildGithubIdp (withHostname "" a) cluster idpName t).
Proof.
  intros Hne H0. rewrite (run_hostname a hostname) by assumption.
  pose proof (run_without_hostname a cluster idpName t) as Hw.
  destruct (buildGithubIdp (withHostname "" a) cluster idpName t) as [[b [e|]] t'];
    [discriminate|]. destruct Hw as [Hg _].
  rewrite <- isValidHostname_spec, <- aliasesGithub_spec.
  unfold ValidationError.
  destruct (isValidHostname hostname); cbn [negb];
    [destruct (aliasesGithub hostname)|]; cbn [fst snd].
  - repeat split; try (intuition congruence). intros _. eauto.
  - repeat split; try (intuition congruence).
    intros _. unfold readHostname, onGithub. cbn.
    destruct (cmv1.github b); [reflexivity | now destruct Hg].
  - repeat split; try (intuition congruence). intros _. eauto.
Qed.

(** C5: with the hostname [github.com], or one that ends with
    [.github.com], no configuration is produced: the run ends with an error
    and the builder untouched.  The error is a hostname error whenever the
    inputs pass without the hostname (otherwise it is the error they fail
    with), and it is the one about the GitHub domain whenever the hostname
    passes the syntax check, which [github.com] and [x.github.com] do. *)
Theorem github_domain_refused (a : args.t) (cluster : Cluster) (idpName : string)
    (t : Terminal) :
  args.githubHostname a = "github.com"
  \/ (exists p, args.githubHostname a = p ++ ".github.com") ->
  exists e,
    fst (buildGithubIdp a cluster idpName t) = (cmv1.zero, Some e)
    /\ (snd (fst (buildGithubIdp (withHostname "" a) cluster idpName t)) = None ->
        ValidationError (args.githubHostname a) e
        /\ (DNS1123Subdomain (args.githubHostname a)
            \/ netutils_ParseIPSloppy (args.githubHostname a) <> None ->
            e = githubHostname (args.githubHostname a)))
    /\ DNS1123Subdomain "github.com"
    /\ DNS1123Subdomain "x.github.com".
Proof.
  intros Halias. apply aliasesGithub_spec in Halias.
  assert (Hne : args.githubHostname a <> "").
  { intros Heq. rewrite Heq in Halias. discriminate. }
  replace (buildGithubIdp a cluster idpName t)
    with (buildGithubIdp (withHostname (args.githubHostname a) a) cluster idpName t)
    by now rewrite withHostname_own.
  rewrite (run_hostname a (args.githubHostname a)) by assumption.
  pose proof (run_without_hostname a cluster idpName t) as Hw.
  rewrite Halias.
  assert (Hdns : DNS1123Subdomain "github.com" /\ DNS1123Subdomain "x.github.com").
  { split; apply IsDNS1123Subdomain_spec; reflexivity. }
  unfold ValidationError.
  destruct (buildGithubIdp (withHostname "" a) cluster idpName t) as [[b [e|]] t'].
  - destruct Hw as [-> _]. exists e. cbn. split; [reflexivity|].
    split; [discriminate | exact Hdns].
  - destruct (isValidHostname (args.githubHostname a)) eqn:Hv; cbn;
      eexists; (split; [reflexivity|]); (split; [|exact Hdns]); intros _;
      (split; [auto|]); intros Hd; apply isValidHostname_spec in Hd;
      congruence.
Qed.

(** The address handed to the URL parser, whatever the parser: GitHub's
    origin followed by the organization's page for a single organization,
    else by the page of the organization before the first slash of a single
    team, else by the generic page.  In interactive mode, once the combined
    prompt is past, it is built from the resolved strings: a parse error
    ends the run, a parsed URL is shown with the query added. *)
Lemma registration_address (a : args.t) (cluster : Cluster) (idpName : string)
    (t : Terminal) :
  (forall organizations teams,
      (organizations <> "" -> strings.Contains organizations "," = false ->
       registerURLBase organizations teams
       = "https://github.com" ++ "/organizations/" ++ organizations
         ++ "/settings/applications/new")
      /\ (~ (organizations <> "" /\ strings.Contains organizations "," = false) ->
          teams <> "" -> strings.Contains teams "," = false ->
          registerURLBase organizations teams
          = "https://github.com" ++ "/organizations/" ++ beforeFirst "/" teams
            ++ "/settings/applications/new")
      /\ (~ (organizations <> "" /\ strings.Contains organizations "," = false) ->
          ~ (teams <> "" /\ strings.Contains teams "," = false) ->
          registerURLBase organizations teams
          = "https://github.com" ++ "/settings/applications/new"))
  /\ (isInteractive (args.clientID a) (args.clientSecret a)
                    (args.githubOrganizations a) (args.githubTeams a) = true ->
      ~ (args.githubOrganizations a <> "" /\ args.githubTeams a <> "") ->
      snd (fst (buildGithubIdp a cluster idpName t)) <> Some expectedOrganization ->
      match url_Parse (registerURLBase (fst (resolved a t)) (snd (resolved a t))) with
      | inl err =>
          fst (buildGithubIdp a cluster idpName t)
          = (cmv1.zero, Some (fmt_Errorf "Error parsing URL: %v" [err]))
      | inr registerURL =>
          exists before after,
            stdout (snd (buildGithubIdp a cluster idpName t))
            = (stdout t ++ before
               ++ Printed (openURLLine cluster idpName registerURL) :: after)%list
      end).
Proof.
  split.
  - intros o tm. unfold registerURLBase. rewrite hd_Split.
    destruct (String.eqb_spec o "") as [Ho|Ho];
      destruct (strings.Contains o ",") eqn:Hoc;
      destruct (String.eqb_spec tm "") as [Ht|Ht];
      destruct (strings.Contains tm ",") eqn:Htc;
      cbn [negb andb]; repeat split; intros;
      try reflexivity; try congruence; try tauto.
  - intros Hmode Hno Hx.
    destruct (buildGithubIdp a cluster idpName t) as [r t'] eqn:Hrun.
    apply run_path in Hrun. cbn [fst snd] in *.
    destruct Hrun as [Ho Ht| _ Hb | e t' _ _ Hi _ | c s o' tm' t' _ _ Hi _];
      [tauto | congruence | |]; cbn [fst snd] in *;
      (apply interactive_url in Hi; [|first [discriminate | congruence]]);
      destruct (url_Parse (registerURLBase (fst (resolved a t)) (snd (resolved a t))));
      first [exact Hi | congruence].
Qed.

(** C6: with Go's URL parser, in interactive mode once the combined prompt
    is past, the line with the registration URL is shown for a URL whose
    path is: the page [/organizations/{organizations}/settings/applications/new]
    when the resolved organizations string is non-empty, has no comma and
    is plain (no [?], [#], [%] and no control byte); else the page
    [/organizations/{org}/settings/applications/new], [org] being the text
    before the first slash of the resolved teams string, when that string is
    non-empty and has no comma and [org] is plain; and the generic page
    [/settings/applications/new] in every other case. *)
Theorem registration_url_path (a : args.t) (cluster : Cluster) (idpName : string)
    (t : Terminal) (organizations teams : string) :
  GoParser ->
  isInteractive (args.clientID a) (args.clientSecret a)
                (args.githubOrganizations a) (args.githubTeams a) = true ->
  ~ (args.githubOrganizations a <> "" /\ args.githubTeams a <> "") ->
  snd (fst (buildGithubIdp a cluster idpName t)) <> Some expectedOrganization ->
  resolved a t = (organizations, teams) ->
  let shown path :=
    exists registerURL before after,
      stdout (snd (buildGithubIdp a cluster idpName t))
      = (stdout t ++ before
         ++ Printed (openURLLine cluster idpName registerURL) :: after)%list
      /\ url.Path registerURL = path in
  (organizations <> "" -> strings.Contains organizations "," = false ->
   gourl.plain organizations = true ->
   shown ("/organizations/" ++ organizations ++ "/settings/applications/new"))
  /\ (~ (organizations <> "" /\ strings.Contains organizations "," = false) ->
      teams <> "" -> strings.Contains teams "," = false ->
      gourl.plain (beforeFirst "/" teams) = true ->
      shown ("/organizations/" ++ beforeFirst "/" teams
             ++ "/settings/applications/new"))
  /\ (~ (organizations <> "" /\ strings.Contains organizations "," = false) ->
      ~ (teams <> "" /\ strings.Contains teams "," = false) ->
      shown "/settings/applications/new").
Proof.
  intros Hgo Hmode Hno Hx Hres shown.
  destruct (registration_address a cluster idpName t) as [Hbase Hrun].
  specialize (Hrun Hmode Hno Hx). rewrite Hres in Hrun. cbn [fst snd] in Hrun.
  destruct (Hbase organizations teams) as (H1 & H2 & H3).
  assert (Hshown : forall rest,
             registerURLBase organizations teams = gourl.origin ++ "/" ++ rest ->
             gourl.plain rest = true -> shown ("/" ++ rest)).
  { intros rest Hb Hp. rewrite Hb, Hgo, (Parse_plain _ Hp) in Hrun.
    destruct Hrun as (before & after & Hout).
    eexists; exists before, after. split; [exact Hout | reflexivity]. }
  repeat split.
  - intros Hne Hc Hp.
    apply (Hshown ("organizations/" ++ organizations ++ "/settings/applications/new"));
      [exact (H1 Hne Hc) | exact (plain_scoped _ Hp)].
  - intros Hn Hne Hc Hp.
    apply (Hshown
             ("organizations/" ++ beforeFirst "/" teams ++ "/settings/applications/new"));
      [exact (H2 Hn Hne Hc) | exact (plain_scoped _ Hp)].
  - intros Hn1 Hn2.
    apply (Hshown "settings/applications/new"); [exact (H3 Hn1 Hn2) | reflexivity].
Qed.

Lemma Contains_nonempty (s sub : string) :
  sub <> "" -> strings.Contains s sub = true -> s <> "".
Proof. intros Hsub H ->. destruct sub; [now destruct Hsub | discriminate]. Qed.

(** C7, amended: with neither organizations nor teams given, the combined
    prompt is shown once, after the first line.  If it is aborted (or the
    input is at its end) the run ends there with an input error and the
    builder untouched.  If it is answered, with any line, the empty one
    included, the run goes on and never ends with that error; the answer
    goes to teams if it contains a slash and to organizations otherwise, and
    a configuration that is produced carries its comma-split accordingly
    (nothing for the empty answer). *)
Theorem combined_prompt (a : args.t) (cluster : Cluster) (idpName : string)
    (t : Terminal) :
  args.githubOrganizations a = "" ->
  args.githubTeams a = "" ->
  (stdin t = [] \/ (exists rest, stdin t = None :: rest) ->
   InputError expectedOrganization
   /\ buildGithubIdp a cluster idpName t
      = ((cmv1.zero, Some expectedOrganization),
         mkTerminal (tl (stdin t))
                    (stdout t ++ [Printed introLine; Asked organizationsPrompt])%list))
  /\ (forall answer rest,
         stdin t = Some answer :: rest ->
         snd (fst (buildGithubIdp a cluster idpName t)) <> Some expectedOrganization
         /\ (exists more,
                stdout (snd (buildGithubIdp a cluster idpName t))
                = (stdout t ++ [Printed introLine; Asked organizationsPrompt] ++ more)%list
                /\ ~ In (Asked organizationsPrompt) more)
         /\ resolved a t
            = (if strings.Contains answer "/" then ("", answer) else (answer, ""))
         /\ (snd (fst (buildGithubIdp a cluster idpName t)) = None ->
             readOrganizations (fst (fst (buildGithubIdp a cluster idpName t)))
             = (if strings.Contains answer "/" then None
                else if answer =? "" then None
                     else Some (strings.Split answer ","))
             /\ readTeams (fst (fst (buildGithubIdp a cluster idpName t)))
                = (if strings.Contains answer "/"
                   then Some (strings.Split answer ",") else None))).
Proof.
  intros Ho Ht.
  assert (Hmode : isInteractive (args.clientID a) (args.clientSecret a)
                    (args.githubOrganizations a) (args.githubTeams a) = true).
  { unfold isInteractive. rewrite Ho, Ht. cbn. now rewrite orb_true_r. }
  split.
  - intros Hin. split; [now left|].
    rewrite buildGithubIdp_blocks, Hmode, Ho, Ht. cbn [negb andb String.eqb].
    now rewrite interactive_abort.
  - intros answer rest Hin.
    assert (Hres : resolved a t
                   = (if strings.Contains answer "/" then ("", answer)
                      else (answer, ""))).
    { unfold resolved. rewrite Ho, Ht, Hin. reflexivity. }
    destruct (buildGithubIdp a cluster idpName t) as [[b e] t'] eqn:Hrun.
    pose proof (success_assembled a cluster idpName t t' b) as Hsucc.
    rewrite Hrun, Hmode, Hres in Hsucc. cbv zeta in Hsucc.
    apply run_path in Hrun. cbn [fst snd].
    assert (Hfinal : e = None ->
      readOrganizations b
      = (if strings.Contains answer "/" then None
         else if answer =? "" then None else Some (strings.Split answer ","))
      /\ readTeams b
         = (if strings.Contains answer "/"
            then Some (strings.Split answer ",") else None)).
    { intros ->. destruct (Hsucc eq_refl) as (c & s & Ha).
      apply assemble_success in Ha as (g & -> & _ & _ & _ & Hgo & Hgt).
      unfold readOrganizations, readTeams. cbn [cmv1.github].
      rewrite Hgo, Hgt.
      destruct (strings.Contains answer "/") eqn:Hc; cbn [fst snd].
      - apply Contains_nonempty in Hc; [|discriminate].
        apply String.eqb_neq in Hc. now rewrite Hc.
      - now destruct (answer =? ""). }
    remember (b, e) as r eqn:Hr.
    destruct Hrun as [Ho' Ht'| _ Hb | e' t' _ _ Hi _ | c s o' tm' t' _ _ Hi _];
      try congruence;
      destruct (interactive_answer _ _ _ _ _ _ _ _ Ho Ht Hin Hi) as [Hx Hout];
      (split; [|split; [exact Hout | split; [exact Hres | exact Hfinal]]]).
    + injection Hr as Hb He. subst b e. intros [= ->]. now apply Hx.
    + destruct e as [e|]; [|discriminate].
      apply assemble_failure in Hr as (_ & _ & [[_ ->]|(_ & _ & ->)]);
        discriminate.
Qed.

(** A run that succeeds was not given both organizations and teams. *)
Lemma success_no_conflict (a : args.t) (cluster : Cluster) (idpName : string)
    (t t' : Terminal) (b : cmv1.IdentityProviderBuilder) :
  buildGithubIdp a cluster idpName t = ((b, None), t') ->
  args.githubOrganizations a = "" \/ args.githubTeams a = "".
Proof.
  intros Hrun. apply run_path in Hrun.
  remember (b, None) as r eqn:Hr.
  destruct (String.eqb_spec (args.githubOrganizations a) "") as [Ho|Ho]; [now left|].
  destruct (String.eqb_spec (args.githubTeams a) "") as [Ht|Ht]; [now right|].
  destruct Hrun; [discriminate | tauto | tauto | tauto].
Qed.

(** Where the round trip of C2 holds: in batch mode the configuration
    carries the comma-split of the flag that was given. *)
Lemma batch_round_trip (a : args.t) (cluster : Cluster) (idpName : string)
    (t t' : Terminal) (b : cmv1.IdentityProviderBuilder) :
  isInteractive (args.clientID a) (args.clientSecret a)
                (args.githubOrganizations a) (args.githubTeams a) = false ->
  buildGithubIdp a cluster idpName t = ((b, None), t') ->
  (args.githubOrganizations a <> "" ->
   readOrganizations b = Some (strings.Split (args.githubOrganizations a) ","))
  /\ (args.githubTeams a <> "" ->
      readTeams b = Some (strings.Split (args.githubTeams a) ",")).
Proof.
  intros Hmode Hrun.
  pose proof (success_no_conflict _ _ _ _ _ _ Hrun) as Hnc.
  apply success_reads in Hrun. rewrite Hmode in Hrun.
  cbv zeta in Hrun. cbn [fst snd] in Hrun. destruct Hrun as [Hro Hrt].
  rewrite Hro, Hrt.
  destruct (String.eqb_spec (args.githubOrganizations a) "");
    destruct (String.eqb_spec (args.githubTeams a) "");
    split; intros Hne; try reflexivity; tauto.
Qed.

(** It holds for teams in interactive mode as well. *)
Lemma interactive_teams_round_trip (a : args.t) (cluster : Cluster)
    (idpName : string) (t t' : Terminal) (b : cmv1.IdentityProviderBuilder) :
  isInteractive (args.clientID a) (args.clientSecret a)
                (args.githubOrganizations a) (args.githubTeams a) = true ->
  args.githubTeams a <> "" ->
  buildGithubIdp a cluster idpName t = ((b, None), t') ->
  readTeams b = Some (strings.Split (args.githubTeams a) ",").
Proof.
  intros Hmode Hne Hrun.
  destruct (success_no_conflict _ _ _ _ _ _ Hrun) as [Ho|Ht]; [|congruence].
  apply success_reads in Hrun. rewrite Hmode in Hrun.
  cbv zeta in Hrun. unfold resolved in Hrun. rewrite Ho in Hrun.
  apply String.eqb_neq in Hne. rewrite Hne in Hrun. cbn in Hrun.
  rewrite Hne in Hrun. tauto.
Qed.

(** It fails for organizations in interactive mode: when the combined
    prompt is not shown the answer variable is empty, and the
    classification stores it over the organizations given by flag. *)
Lemma flag_organizations_dropped (a : args.t) (cluster : Cluster)
    (idpName : string) (t t' : Terminal) (b : cmv1.IdentityProviderBuilder) :
  isInteractive (args.clientID a) (args.clientSecret a)
                (args.githubOrganizations a) (args.githubTeams a) = true ->
  args.githubOrganizations a <> "" ->
  buildGithubIdp a cluster idpName t = ((b, None), t') ->
  readOrganizations b = None /\ readTeams b = None.
Proof.
  intros Hmode Hne Hrun.
  destruct (success_no_conflict _ _ _ _ _ _ Hrun) as [Ho|Ht]; [congruence|].
  apply success_reads in Hrun. rewrite Hmode in Hrun.
  cbv zeta in Hrun. unfold resolved in Hrun. rewrite Ht in Hrun.
  apply String.eqb_neq in Hne. rewrite Hne in Hrun. exact Hrun.
Qed.

(** C2, the failing input: organizations [acme] by flag, client secret by
    flag, the client ID typed at its prompt.  The comma-split of the input
    is the list of [acme] alone; the builder the run ends with has no
    organizations, and whenever the generic registration address parses
    the run succeeds, with the client ID prompt as its only prompt. *)
Theorem supplied_organizations_lost (cluster : Cluster) (idpName : string)
    (out : list Event) :
  let a := args.mk "" "secret" "acme" "" "" "claim" in
  let run := buildGithubIdp a cluster idpName (mkTerminal [Some "id"] out) in
  strings.Split (args.githubOrganizations a) "," = ["acme"]
  /\ readOrganizations (fst (fst run)) = None
  /\ (forall u,
         url_Parse "https://github.com/settings/applications/new" = inr u ->
         snd (fst run) = None
         /\ prompts (stdout (snd run)) = (prompts out ++ [clientIDPrompt])%list).
Proof.
  cbv zeta. split; [reflexivity|].
  rewrite buildGithubIdp_blocks. cbn -[interactive assemble].
  unfold interactive, bind, pure, Return, fmt.Println, survey.AskOne.
  cbn -[assemble].
  destruct (url_Parse "https://github.com/settings/applications/new") as [err|u];
    cbn; (split; [reflexivity|]); intros u' [=].
  split; [reflexivity|].
  unfold prompts. rewrite !flat_map_app. cbn. now rewrite !app_nil_r.
Qed.

(** ** Further properties of the function

    What the interactive block shows and consumes, how it stops, the
    configurations of the two modes, and what the hostname, the names and
    the cluster can and cannot do. *)

(** The interactive block run to its end: what it showed, what it consumed
    and where the credentials it yields come from. *)
Lemma interactive_through (a : args.t) (cluster : Cluster) (idpName : string)
    (t t' : Terminal) (clientID clientSecret organizations teams : string) :
  interactive a cluster idpName t
  = (inl (clientID, clientSecret, organizations, teams), t') ->
  exists registerURL,
    url_Parse (registerURLBase organizations teams) = inr registerURL
    /\ stdout t' = (stdout t ++ transcript a cluster idpName registerURL)%list
    /\ stdin t'
       = skipn (combinedPrompts a + clientIDPrompts a + clientSecretPrompts a) (stdin t)
    /\ combinedPrompts a + clientIDPrompts a + clientSecretPrompts a
       <= List.length (stdin t)
    /\ (args.clientID a = "" -> typedAt (combinedPrompts a) t = Some clientID)
    /\ (args.clientSecret a = "" ->
        typedAt (combinedPrompts a + clientIDPrompts a) t = Some clientSecret).
Proof.
  intros H. flags a t.
  unfold transcript, combinedPrompts, clientIDPrompts, clientSecretPrompts, typedAt,
    openURLLine.
  cbn [args.clientID args.clientSecret args.githubOrganizations args.githubTeams
       stdin stdout].
  run_paths H; eexists; (split; [eassumption|]); cbn; flatten_output;
    repeat split; try reflexivity; try lia; intros; congruence.
Qed.

(** X1: a run in interactive mode that gets past the prompts and the URL
    (it succeeds, or fails on the hostname only) has shown the whole
    transcript, in order: the first line, the combined prompt if neither
    organizations nor teams were given, the registration URL and the line
    after it, the client ID prompt if the client ID was missing, the client
    secret prompt if the secret was missing.  It has consumed one reply for
    each prompt, and there were that many. *)
Theorem interactive_transcript (a : args.t) (cluster : Cluster) (idpName : string)
    (t t' : Terminal) (b : cmv1.IdentityProviderBuilder) (e : option error) :
  buildGithubIdp a cluster idpName t = ((b, e), t') ->
  isInteractive (args.clientID a) (args.clientSecret a)
                (args.githubOrganizations a) (args.githubTeams a) = true ->
  (forall e', e = Some e' -> ValidationError (args.githubHostname a) e') ->
  exists registerURL,
    url_Parse (registerURLBase (fst (resolved a t)) (snd (resolved a t)))
    = inr registerURL
    /\ stdout t' = (stdout t ++ transcript a cluster idpName registerURL)%list
    /\ stdin t'
       = skipn (combinedPrompts a + clientIDPrompts a + clientSecretPrompts a) (stdin t)
    /\ combinedPrompts a + clientIDPrompts a + clientSecretPrompts a
       <= List.length (stdin t).
Proof.
  intros Hrun Hmode Hkind. apply run_path in Hrun.
  remember (b, e) as r eqn:Hr.
  destruct Hrun as [Ho Ht| _ Hb | e0 t' _ _ Hi He | c s o' tm' t' _ _ Hi Hres].
  - injection Hr as _ <-. destruct (Hkind _ eq_refl); discriminate.
  - congruence.
  - injection Hr as _ <-. specialize (Hkind _ eq_refl).
    destruct Hkind as [->| ->]; destruct He as [[He|[He|He]]|[err He]];
      discriminate.
  - rewrite <- Hres. cbn [fst snd].
    apply interactive_through in Hi as (u & Hu & Hout & Hin & Hlen & _).
    now exists u.
Qed.

(** X2: the client ID and the client secret of a produced configuration are
    the flags when they were given and, when they were missing, the lines
    typed at their prompts, as they were typed: the reply after the combined
    prompt's, if that one was shown, for the client ID and the next one for
    the client secret. *)
Theorem credentials_verbatim (a : args.t) (cluster : Cluster) (idpName : string)
    (t t' : Terminal) (b : cmv1.IdentityProviderBuilder) :
  buildGithubIdp a cluster idpName t = ((b, None), t') ->
  exists g clientID clientSecret,
    cmv1.github b = Some g
    /\ cmv1.clientID g = Some clientID
    /\ cmv1.clientSecret g = Some clientSecret
    /\ (if args.clientID a =? "" then typedAt (combinedPrompts a) t = Some clientID
        else clientID = args.clientID a)
    /\ (if args.clientSecret a =? ""
        then typedAt (combinedPrompts a + clientIDPrompts a) t = Some clientSecret
        else clientSecret = args.clientSecret a).
Proof.
  intros Hrun. apply run_path in Hrun.
  remember (b, None) as r eqn:Hr.
  destruct Hrun as [Ho Ht| _ Hb | e0 t' _ _ Hi He | c s o' tm' t' _ _ Hi Hres];
    try discriminate;
    apply assemble_success in Hr as (g & -> & Hc & Hs & _).
  - exists g, (args.clientID a), (args.clientSecret a).
    unfold isInteractive in Hb. apply orb_false_iff in Hb as [Hb _].
    apply orb_false_iff in Hb as [-> ->]. cbn. auto.
  - exists g, c, s. cbn [cmv1.github]. repeat split; auto.
    + destruct (String.eqb_spec (args.clientID a) "") as [Heq|Hne].
      * now apply interactive_through in Hi as (_ & _ & _ & _ & _ & Hid & _); auto.
      * now apply interactive_values in Hi as (_ & Hid & _); auto.
    + destruct (String.eqb_spec (args.clientSecret a) "") as [Heq|Hne].
      * now apply interactive_through in Hi as (_ & _ & _ & _ & _ & _ & Hsec); auto.
      * now apply interactive_values in Hi as (_ & _ & Hsec); auto.
Qed.

(** The first steps of every proof about a run cut short: the run is the
    interactive block. *)
Lemma run_interactive (a : args.t) (cluster : Cluster) (idpName : string)
    (t : Terminal) :
  ~ (args.githubOrganizations a <> "" /\ args.githubTeams a <> "") ->
  isInteractive (args.clientID a) (args.clientSecret a)
                (args.githubOrganizations a) (args.githubTeams a) = true ->
  buildGithubIdp a cluster idpName t
  = match interactive a cluster idpName t with
    | (inl (clientID, clientSecret, organizations, teams), t') =>
        (assemble a idpName clientID clientSecret organizations teams, t')
    | (inr r, t') => (r, t')
    end.
Proof.
  intros Hno Hmode. rewrite buildGithubIdp_blocks, Hmode.
  destruct (String.eqb_spec (args.githubOrganizations a) "");
    destruct (String.eqb_spec (args.githubTeams a) ""); cbn [negb andb];
    tauto.
Qed.

Ltac stopped_run Hno Hmode Hi :=
  rewrite (run_interactive _ _ _ _ Hno Hmode);
  match goal with
  | |- context [interactive ?a ?c ?n ?t] =>
      destruct (interactive a c n t) as [x t''] eqn:Hi
  end.

Ltac settle Hurl :=
  cbn -[registerURLBase] in *;
  repeat match goal with
  | Hc : strings.Contains _ _ = _ |- _ => rewrite Hc in Hurl
  end;
  cbn [fst snd] in Hurl.

Ltac same_parse :=
  try match goal with
  | H1 : url_Parse ?x = inl ?a, H2 : url_Parse ?x = inl ?b |- _ =>
      assert (a = b) by congruence; subst
  | H1 : url_Parse ?x = inr ?a, H2 : url_Parse ?x = inr ?b |- _ =>
      assert (a = b) by congruence; subst
  end.

(** X5: when the registration address does not parse, the run ends there
    with the URL error and the builder untouched: after the first line and
    the combined prompt, if that was shown and answered, nothing more is
    printed and the credentials are not asked for. *)
Theorem url_error_stops (a : args.t) (cluster : Cluster) (idpName : string)
    (t : Terminal) (err : string) :
  ~ (args.githubOrganizations a <> "" /\ args.githubTeams a <> "") ->
  isInteractive (args.clientID a) (args.clientSecret a)
                (args.githubOrganizations a) (args.githubTeams a) = true ->
  (combinedPrompts a = 1 -> typedAt 0 t <> None) ->
  url_Parse (registerURLBase (fst (resolved a t)) (snd (resolved a t))) = inl err ->
  buildGithubIdp a cluster idpName t
  = ((cmv1.zero, Some (fmt_Errorf "Error parsing URL: %v" [err])),
     mkTerminal (skipn (combinedPrompts a) (stdin t))
                (stdout t ++ Printed introLine
                 :: repeat (Asked organizationsPrompt) (combinedPrompts a))%list).
Proof.
  intros Hno Hmode Hans Hurl. stopped_run Hno Hmode Hi.
  clear Hno Hmode. flags a t.
  unfold combinedPrompts, typedAt, resolved in *.
  cbn [args.clientID args.clientSecret args.githubOrganizations args.githubTeams
       stdin stdout] in *.
  run_paths Hi; settle Hurl; flatten_output;
    solve [ exfalso; congruence
          | exfalso; now apply Hans
          | same_parse; reflexivity ].
Qed.

(** X3: with the client ID missing, a run that reaches its prompt and finds
    it aborted (or the input at its end) stops there with the client ID error
    and the builder untouched; the prompt is the last thing shown, after the
    registration URL, and the client secret is not asked for. *)
Theorem client_id_abort (a : args.t) (cluster : Cluster) (idpName : string)
    (t : Terminal) (registerURL : url.URL) :
  ~ (args.githubOrganizations a <> "" /\ args.githubTeams a <> "") ->
  args.clientID a = "" ->
  (combinedPrompts a = 1 -> typedAt 0 t <> None) ->
  url_Parse (registerURLBase (fst (resolved a t)) (snd (resolved a t)))
  = inr registerURL ->
  typedAt (combinedPrompts a) t = None ->
  buildGithubIdp a cluster idpName t
  = ((cmv1.zero, Some expectedClientID),
     mkTerminal (skipn (S (combinedPrompts a)) (stdin t))
                (stdout t ++ Printed introLine
                 :: repeat (Asked organizationsPrompt) (combinedPrompts a)
                 ++ [Printed (openURLLine cluster idpName registerURL);
                     Printed clickLine; Asked clientIDPrompt])%list).
Proof.
  intros Hno Hcid Hans Hurl Hid.
  assert (Hmode : isInteractive (args.clientID a) (args.clientSecret a)
                    (args.githubOrganizations a) (args.githubTeams a) = true)
    by (unfold isInteractive; now rewrite Hcid).
  stopped_run Hno Hmode Hi. clear Hno Hmode. flags a t. subst cid.
  unfold combinedPrompts, typedAt, resolved, openURLLine in *.
  cbn [args.clientID args.clientSecret args.githubOrganizations args.githubTeams
       stdin stdout] in *.
  run_paths Hi; settle Hurl; flatten_output;
    solve [ exfalso; congruence
          | exfalso; now apply Hans
          | same_parse; reflexivity ].
Qed.

(** X4: the same for the client secret, which is asked for last: when its
    prompt is aborted the run stops with the client secret error, whatever
    was typed before. *)
Theorem client_secret_abort (a : args.t) (cluster : Cluster) (idpName : string)
    (t : Terminal) (registerURL : url.URL) :
  ~ (args.githubOrganizations a <> "" /\ args.githubTeams a <> "") ->
  args.clientSecret a = "" ->
  (combinedPrompts a = 1 -> typedAt 0 t <> None) ->
  (clientIDPrompts a = 1 -> typedAt (combinedPrompts a) t <> None) ->
  url_Parse (registerURLBase (fst (resolved a t)) (snd (resolved a t)))
  = inr registerURL ->
  typedAt (combinedPrompts a + clientIDPrompts a) t = None ->
  buildGithubIdp a cluster idpName t
  = ((cmv1.zero, Some expectedClientSecret),
     mkTerminal (skipn (S (combinedPrompts a + clientIDPrompts a)) (stdin t))
                (stdout t ++ Printed introLine
                 :: repeat (Asked organizationsPrompt) (combinedPrompts a)
                 ++ [Printed (openURLLine cluster idpName registerURL);
                     Printed clickLine]
                 ++ repeat (Asked clientIDPrompt) (clientIDPrompts a)
                 ++ [Asked clientSecretPrompt])%list).
Proof.
  intros Hno Hsec Hans Hidans Hurl Hs.
  assert (Hmode : isInteractive (args.clientID a) (args.clientSecret a)
                    (args.githubOrganizations a) (args.githubTeams a) = true)
    by (unfold isInteractive; rewrite Hsec; cbn; now rewrite orb_true_r).
  stopped_run Hno Hmode Hi. clear Hno Hmode. flags a t. subst sec.
  unfold combinedPrompts, clientIDPrompts, typedAt, resolved, openURLLine in *.
  cbn [args.clientID args.clientSecret args.githubOrganizations args.githubTeams
       stdin stdout] in *.
  run_paths Hi; settle Hurl; flatten_output;
    solve [ exfalso; congruence
          | exfalso; now apply Hans
          | exfalso; now apply Hidans
          | same_parse; reflexivity ].
Qed.

Ltac shown_event :=
  first [ left; reflexivity
        | right; left; reflexivity
        | right; right; left; eexists; split;
          [first [eassumption | reflexivity] | reflexivity]
        | right; right; right; left; reflexivity
        | right; right; right; right; left; reflexivity
        | right; right; right; right; right; reflexivity ].

(** What the interactive block shows and consumes, however it ends. *)
Lemma interactive_shown (a : args.t) (cluster : Cluster) (idpName : string)
    (t t' : Terminal) x :
  interactive a cluster idpName t = (x, t') ->
  exists more,
    stdout t' = (stdout t ++ more)%list
    /\ Forall (Shown a cluster idpName t) more
    /\ NoDup (prompts more)
    /\ List.length (prompts more) <= 3
    /\ stdin t' = skipn (List.length (prompts more)) (stdin t).
Proof.
  intros H. flags a t. unfold Shown, resolved, openURLLine.
  cbn [args.githubOrganizations args.githubTeams stdin stdout].
  run_paths H; cbn -[registerURLBase]; flatten_output;
    eexists; (split; [reflexivity|]);
    (split;
     [ use_facts; cbn [fst snd]; repeat (apply Forall_cons; [shown_event|]);
       apply Forall_nil
     | split; [|split; [cbn; lia | reflexivity]];
       cbn; repeat (apply NoDup_cons; [cbn; intuition discriminate|]);
       apply NoDup_nil ]).
Qed.

Lemma every_run_shown (a : args.t) (cluster : Cluster) (idpName : string)
    (t : Terminal) :
  exists more,
    stdout (snd (buildGithubIdp a cluster idpName t)) = (stdout t ++ more)%list
    /\ Forall (Shown a cluster idpName t) more
    /\ NoDup (prompts more)
    /\ List.length (prompts more) <= 3
    /\ stdin (snd (buildGithubIdp a cluster idpName t))
       = skipn (List.length (prompts more)) (stdin t).
Proof.
  assert (Hnone : exists more,
    stdout t = (stdout t ++ more)%list
    /\ Forall (Shown a cluster idpName t) more
    /\ NoDup (prompts more)
    /\ List.length (prompts more) <= 3
    /\ stdin t = skipn (List.length (prompts more)) (stdin t)).
  { exists []. rewrite app_nil_r. cbn. repeat split; auto using NoDup_nil. }
  destruct (buildGithubIdp a cluster idpName t) as [r t'] eqn:Hrun.
  apply run_path in Hrun. cbn [snd].
  destruct Hrun as [Ho Ht| _ Hb | e0 t' _ _ Hi He | c s o' tm' t' _ _ Hi Hres];
    auto; eapply interactive_shown; exact Hi.
Qed.

(** X6: a run only adds to what the terminal shows, and what it adds is
    made of the first line, the three prompts, the line after the URL and
    the line with the registration URL parsed from the address for the
    resolved strings, nothing else. *)
Theorem output_vocabulary (a : args.t) (cluster : Cluster) (idpName : string)
    (t : Terminal) :
  exists more,
    stdout (snd (buildGithubIdp a cluster idpName t)) = (stdout t ++ more)%list
    /\ Forall (Shown a cluster idpName t) more.
Proof.
  destruct (every_run_shown a cluster idpName t) as (more & Hout & Hshown & _).
  now exists more.
Qed.

(** X7: a run shows each prompt at most once, three prompts at most, and
    takes exactly one waiting reply for each prompt it shows (none beyond the
    end of the input); the replies after those are left for the caller. *)
Theorem one_reply_per_prompt (a : args.t) (cluster : Cluster) (idpName : string)
    (t : Terminal) :
  exists more,
    stdout (snd (buildGithubIdp a cluster idpName t)) = (stdout t ++ more)%list
    /\ NoDup (prompts more)
    /\ List.length (prompts more) <= 3
    /\ stdin (snd (buildGithubIdp a cluster idpName t))
       = skipn (List.length (prompts more)) (stdin t).
Proof.
  destruct (every_run_shown a cluster idpName t) as (more & Hout & _ & Hrest).
  now exists more.
Qed.

(** X8: in batch mode (client ID and secret given, and one of organizations
    and teams) nothing is asked or printed, and with the hostname absent or
    acceptable the configuration is exactly the flags: the two credentials,
    the hostname if any, the comma-split organizations or teams, the type
    tag, the idp name and the mapping method. *)
Theorem batch_configuration (a : args.t) (cluster : Cluster) (idpName : string)
    (t : Terminal) :
  args.clientID a <> "" ->
  args.clientSecret a <> "" ->
  (args.githubOrganizations a = "" /\ args.githubTeams a <> "")
  \/ (args.githubOrganizations a <> "" /\ args.githubTeams a = "") ->
  args.githubHostname a = ""
  \/ ((DNS1123Subdomain (args.githubHostname a)
       \/ netutils_ParseIPSloppy (args.githubHostname a) <> None)
      /\ ~ (args.githubHostname a = "github.com"
            \/ exists p, args.githubHostname a = p ++ ".github.com")) ->
  buildGithubIdp a cluster idpName t
  = ((cmv1.mkIdp
        (Some "GithubIdentityProvider") (Some idpName) (Some (args.mappingMethod a))
        (Some (cmv1.mkGithub
                 (Some (args.clientID a)) (Some (args.clientSecret a))
                 (if args.githubHostname a =? "" then None
                  else Some (args.githubHostname a))
                 (if args.githubOrganizations a =? "" then None
                  else Some (strings.Split (args.githubOrganizations a) ","))
                 (if args.githubOrganizations a =? ""
                  then Some (strings.Split (args.githubTeams a) ",") else None))),
      None), t).
Proof.
  intros Hc Hs Hot Hh. rewrite buildGithubIdp_blocks.
  rewrite <- isValidHostname_spec, <- aliasesGithub_spec in Hh.
  assert (Hassemble : forall o tm,
    assemble a idpName (args.clientID a) (args.clientSecret a) o tm
    = (finish a idpName
         (attach o tm
            (cmv1.mkGithub (Some (args.clientID a)) (Some (args.clientSecret a))
               (if args.githubHostname a =? "" then None
                else Some (args.githubHostname a)) None None)), None)).
  { intros o tm. unfold assemble.
    destruct Hh as [Hh|[Hv Ha]].
    - rewrite Hh. reflexivity.
    - rewrite Hv. destruct (aliasesGithub (args.githubHostname a));
        [now destruct Ha|].
      destruct (args.githubHostname a =? ""); reflexivity. }
  unfold isInteractive. apply String.eqb_neq in Hc, Hs. rewrite Hc, Hs.
  rewrite Hassemble. unfold attach, finish.
  destruct Hot as [[Ho Ht]|[Ho Ht]].
  - apply String.eqb_neq in Ht. rewrite Ho, Ht. reflexivity.
  - apply String.eqb_neq in Ho. rewrite Ho, Ht. reflexivity.
Qed.

(** X9: the hostname is looked at after everything else.  Whatever hostname
    is given, valid or not, the terminal ends as it does without it (the
    prompts are all shown and answered first), and a run that fails without
    the hostname fails with the same error with it. *)
Theorem hostname_checked_last (a : args.t) (hostname : string) (cluster : Cluster)
    (idpName : string) (t : Terminal) :
  snd (buildGithubIdp (withHostname hostname a) cluster idpName t)
  = snd (buildGithubIdp (withHostname "" a) cluster idpName t)
  /\ (forall e,
         snd (fst (buildGithubIdp (withHostname "" a) cluster idpName t)) = Some e ->
         fst (buildGithubIdp (withHostname hostname a) cluster idpName t)
         = fst (buildGithubIdp (withHostname "" a) cluster idpName t)).
Proof.
  destruct (String.eqb_spec hostname "") as [->|Hne]; [now split|].
  rewrite (run_hostname a hostname) by assumption.
  destruct (buildGithubIdp (withHostname "" a) cluster idpName t) as [[b [e|]] t'];
    cbn [fst snd]; [now split|].
  split; [|discriminate].
  destruct (isValidHostname hostname); [destruct (aliasesGithub hostname)|];
    reflexivity.
Qed.

(** X10: with no hostname given nothing is checked about it: the run never
    ends with a hostname error, only with the conflict error, a prompt's or
    the URL's, and a configuration that is produced has no hostname. *)
Theorem no_hostname_no_check (a : args.t) (cluster : Cluster) (idpName : string)
    (t : Terminal) :
  args.githubHostname a = "" ->
  match snd (fst (buildGithubIdp a cluster idpName t)) with
  | None => readHostname (fst (fst (buildGithubIdp a cluster idpName t))) = None
  | Some e => ConflictError e \/ InputError e \/ URLError e
  end.
Proof.
  intros Hh. pose proof (run_without_hostname a cluster idpName t) as Hw.
  rewrite <- Hh, withHostname_own in Hw.
  destruct (buildGithubIdp a cluster idpName t) as [[b [e|]] t']; cbn [fst snd];
    tauto.
Qed.

(** Joining the pieces of a split with the separator gives the string back. *)
Lemma concat_Split (s : string) (sep : ascii) :
  String.concat (String sep "") (strings.Split s sep) = s.
Proof.
  induction s as [|c s IH]; [reflexivity|]. cbn [strings.Split].
  pose proof (Split_not_nil s sep) as Hne.
  destruct (Ascii.eqb_spec c sep) as [->|Hc];
    destruct (strings.Split s sep) as [|p r]; try (now destruct Hne);
    cbn [String.concat] in *.
  - now rewrite IH.
  - destruct r; cbn in *; now rewrite <- IH.
Qed.

(** No piece of a split holds the separator. *)
Lemma Split_pieces (s : string) (sep : ascii) :
  Forall (fun piece => strings.Contains piece (String sep "") = false)
         (strings.Split s sep).
Proof.
  induction s as [|c s IH]; cbn [strings.Split].
  - now repeat constructor.
  - destruct (Ascii.eqb_spec c sep) as [->|Hc].
    + now constructor.
    + destruct (strings.Split s sep) as [|p r]; [now repeat constructor; cbn;
        destruct (ascii_dec sep c); [congruence|]|].
      inversion IH as [|? ? Hp Hr]; subst. constructor; [|exact Hr].
      cbn. destruct (ascii_dec sep c); [congruence | exact Hp].
Qed.

(** One more piece than separators. *)
Lemma length_Split (s : string) (sep : ascii) :
  List.length (strings.Split s sep)
  = S (count_occ ascii_dec (list_ascii_of_string s) sep).
Proof.
  induction s as [|c s IH]; [reflexivity|]. cbn [strings.Split list_ascii_of_string].
  pose proof (Split_not_nil s sep) as Hne.
  destruct (Ascii.eqb_spec c sep) as [->|Hc].
  - rewrite count_occ_cons_eq by reflexivity. cbn. now rewrite IH.
  - rewrite count_occ_cons_neq by assumption.
    destruct (strings.Split s sep) as [|p r]; [now destruct Hne|]. exact IH.
Qed.

(** X11: the lists of a configuration keep the names as they were written:
    joined with commas they give back the organizations (or teams) string of
    the run's mode exactly, with one name more than there are commas, so a
    name is neither trimmed nor dropped, an empty one included, and no name
    holds a comma. *)
Theorem names_kept_as_written (a : args.t) (cluster : Cluster) (idpName : string)
    (t t' : Terminal) (b : cmv1.IdentityProviderBuilder) :
  buildGithubIdp a cluster idpName t = ((b, None), t') ->
  let ot :=
    if isInteractive (args.clientID a) (args.clientSecret a)
                     (args.githubOrganizations a) (args.githubTeams a)
    then resolved a t
    else (args.githubOrganizations a, args.githubTeams a) in
  (forall names,
      readOrganizations b = Some names ->
      String.concat "," names = fst ot
      /\ List.length names
         = S (count_occ ascii_dec (list_ascii_of_string (fst ot)) ","%char)
      /\ Forall (fun name => strings.Contains name "," = false) names)
  /\ (forall names,
         readTeams b = Some names ->
         String.concat "," names = snd ot
         /\ List.length names
            = S (count_occ ascii_dec (list_ascii_of_string (snd ot)) ","%char)
         /\ Forall (fun name => strings.Contains name "," = false) names).
Proof.
  intros Hrun. apply success_reads in Hrun. cbv zeta in *. revert Hrun.
  destruct (if isInteractive _ _ _ _ then resolved a t else _) as [o' tm'].
  cbn [fst snd]. intros [-> ->].
  split; intros names;
    [destruct (o' =? "") | destruct (o' =? ""); [destruct (tm' =? "")|]];
    try discriminate; intros [= <-];
    auto using concat_Split, length_Split, Split_pieces.
Qed.

(** The bytes of a string whose pieces between dots are made of label
    bytes are label bytes and dots. *)
Lemma Split_chars (p : ascii -> bool) (s : string) (sep : ascii) :
  Forall (fun piece => validation.allChars p piece = true) (strings.Split s sep) ->
  validation.allChars (fun c => p c || Ascii.eqb c sep) s = true.
Proof.
  induction s as [|c s IH]; [reflexivity|]. cbn [strings.Split validation.allChars].
  destruct (Ascii.eqb c sep) eqn:Hc.
  - intros H. inversion H; subst. rewrite orb_true_r. cbn. auto.
  - destruct (strings.Split s sep) as [|piece rest] eqn:Hs;
      [now destruct (Split_not_nil s sep)|].
    intros H. inversion H as [|? ? Hp Hr]; subst. cbn in Hp.
    apply andb_true_iff in Hp as [Hpc Hpp]. rewrite Hpc. cbn.
    apply IH. now constructor.
Qed.

(** X12: a hostname that reaches a configuration is the flag as given, and
    it is an address of the IP parser or a name of at most 253 bytes made
    only of lowercase letters, digits, hyphens and dots; a name with an
    uppercase letter or any other byte is never accepted, so the comparison
    with the GitHub domain needs no case folding. *)
Theorem accepted_hostname_bytes (a : args.t) (cluster : Cluster) (idpName : string)
    (t t' : Terminal) (b : cmv1.IdentityProviderBuilder) (hostname : string) :
  buildGithubIdp a cluster idpName t = ((b, None), t') ->
  readHostname b = Some hostname ->
  hostname = args.githubHostname a
  /\ hostname <> ""
  /\ (netutils_ParseIPSloppy hostname <> None
      \/ (String.length hostname <= 253
          /\ forall i c, String.get i hostname = Some c ->
                         validation.isLabelChar c = true \/ c = "."%char)).
Proof.
  intros Hrun Hread.
  assert (Hsucc : exists c s o' tm',
             assemble a idpName c s o' tm' = (b, None)).
  { apply success_assembled in Hrun as (c & s & Ha). eauto. }
  destruct Hsucc as (c & s & o' & tm' & Ha).
  pose proof (proj1 (assemble_success_iff a idpName c s o' tm')) as Hiff.
  rewrite Ha in Hiff. specialize (Hiff eq_refl).
  apply assemble_success in Ha as (g & -> & _ & _ & Hh & _).
  unfold readHostname in Hread. cbn in Hread. rewrite Hh in Hread.
  destruct (String.eqb_spec (args.githubHostname a) "") as [Heq|Hne];
    [discriminate|]. injection Hread as <-.
  split; [reflexivity|]. split; [assumption|].
  destruct Hiff as [Hempty|[Hvalid _]]; [now destruct Hne|].
  apply isValidHostname_spec in Hvalid as [[Hlen Hlabels]|Hip]; [right | now left].
  split; [exact Hlen|].
  assert (Hall : validation.allChars
                   (fun c => validation.isLabelChar c || Ascii.eqb c ".")
                   (args.githubHostname a) = true).
  { apply Split_chars. eapply Forall_impl; [|exact Hlabels].
    intros label (_ & Hchars & _). now apply allChars_get. }
  intros i ch Hget.
  pose proof (proj1 (allChars_get _ _) Hall i ch Hget) as Hch.
  apply orb_true_iff in Hch as [Hch|Hch]; [now left|].
  right. now apply Ascii.eqb_eq.
Qed.

Lemma Contains_byte_app (x y : string) (c : ascii) :
  strings.Contains (x ++ y) (String c "") = false
  <-> strings.Contains x (String c "") = false
      /\ strings.Contains y (String c "") = false.
Proof.
  induction x as [|d x IH]; cbn [append].
  - cbn. tauto.
  - cbn [strings.Contains String.prefix].
    destruct (ascii_dec c d) as [->|Hne].
    + destruct x, y; cbn; intuition discriminate.
    + exact IH.
Qed.

Lemma beforeFirst_app (org rest : string) (sep : ascii) :
  strings.Contains org (String sep "") = false ->
  beforeFirst sep (org ++ String sep rest) = org.
Proof.
  induction org as [|d org IH]; cbn [append beforeFirst].
  - intros _. now rewrite Ascii.eqb_refl.
  - cbn [strings.Contains String.prefix].
    destruct (ascii_dec sep d) as [->|Hne]; [destruct org; discriminate|].
    intros H. apply not_eq_sym, Ascii.eqb_neq in Hne. rewrite Hne.
    now rewrite (IH H).
Qed.

(** X13: one team typed at the combined prompt, [org/team], sends the
    operator to the registration page of [org], the text up to the first
    slash: the answer is classified as teams and the address that is parsed
    is the page of that organization.  An answer that starts with the slash
    gives the page of the organization with the empty name. *)
Theorem single_team_registration_url (a : args.t) (t : Terminal)
    (org team : string) (rest : list (option string)) :
  args.githubOrganizations a = "" ->
  args.githubTeams a = "" ->
  stdin t = Some (org ++ "/" ++ team) :: rest ->
  strings.Contains org "/" = false ->
  strings.Contains org "," = false ->
  strings.Contains team "," = false ->
  resolved a t = ("", org ++ "/" ++ team)
  /\ registerURLBase (fst (resolved a t)) (snd (resolved a t))
     = "https://github.com/organizations/" ++ org ++ "/settings/applications/new".
Proof.
  intros Ho Ht Hin Hslash Hoc Htc.
  assert (Hc : strings.Contains (org ++ "/" ++ team) "/" = true).
  { clear. induction org as [|d org IH]; cbn [append].
    - cbn. now destruct team.
    - cbn [strings.Contains String.prefix].
      destruct (ascii_dec "/" d); [|exact IH].
      destruct (String.prefix "" (org ++ String "/" team)); [reflexivity | exact IH]. }
  assert (Hres : resolved a t = ("", org ++ "/" ++ team)).
  { unfold resolved. rewrite Ho, Ht, Hin. cbn [andb String.eqb]. now rewrite Hc. }
  split; [exact Hres|]. rewrite Hres. cbn [fst snd].
  unfold registerURLBase. rewrite hd_Split.
  change (org ++ "/" ++ team) with (org ++ String "/" team).
  rewrite beforeFirst_app by assumption.
  assert (Hcomma : strings.Contains (org ++ String "/" team) "," = false).
  { apply Contains_byte_app. split; [assumption|].
    cbn [strings.Contains String.prefix].
    destruct (ascii_dec "," "/"); [discriminate|].
    exact Htc. }
  rewrite Hcomma.
  assert (Hne : (org ++ String "/" team =? "") = false).
  { apply String.eqb_neq. destruct org; discriminate. }
  rewrite Hne. reflexivity.
Qed.

(** The interactive block on two clusters: the same outcome, the same
    prompts, the same replies consumed. *)
Lemma interactive_cluster (a : args.t) (cluster1 cluster2 : Cluster)
    (idpName : string) (t : Terminal) :
  fst (interactive a cluster1 idpName t) = fst (interactive a cluster2 idpName t)
  /\ stdin (snd (interactive a cluster1 idpName t))
     = stdin (snd (interactive a cluster2 idpName t))
  /\ prompts (stdout (snd (interactive a cluster1 idpName t)))
     = prompts (stdout (snd (interactive a cluster2 idpName t))).
Proof.
  destruct (interactive a cluster1 idpName t) as [x1 t1] eqn:H1.
  destruct (interactive a cluster2 idpName t) as [x2 t2] eqn:H2.
  flags a t. run_red H2. run_red H2.
  run_paths H1; run_red H2;
    repeat (match goal with
            | Hc : url_Parse _ = _ |- _ => rewrite Hc in H2
            | Hc : strings.Contains _ _ = _ |- _ => rewrite Hc in H2
            end; run_red H2);
    injection H2 as <- <-; cbn [fst snd stdin stdout];
    (split; [reflexivity|]); (split; [reflexivity|]);
    unfold prompts; rewrite !flat_map_app; reflexivity.
Qed.

(** X14: the cluster reaches the registration URL that is shown and nothing
    else: on any two clusters a run ends with the same configuration or the
    same error, shows the same prompts and leaves the same replies. *)
Theorem cluster_only_in_url (a : args.t) (cluster1 cluster2 : Cluster)
    (idpName : string) (t : Terminal) :
  fst (buildGithubIdp a cluster1 idpName t) = fst (buildGithubIdp a cluster2 idpName t)
  /\ stdin (snd (buildGithubIdp a cluster1 idpName t))
     = stdin (snd (buildGithubIdp a cluster2 idpName t))
  /\ prompts (stdout (snd (buildGithubIdp a cluster1 idpName t)))
     = prompts (stdout (snd (buildGithubIdp a cluster2 idpName t))).
Proof.
  rewrite !buildGithubIdp_blocks.
  destruct (negb (args.githubOrganizations a =? "") && negb (args.githubTeams a =? ""));
    [now repeat split|].
  destruct (isInteractive _ _ _ _); [|now repeat split].
  pose proof (interactive_cluster a cluster1 cluster2 idpName t) as (Hx & Hin & Hp).
  destruct (interactive a cluster1 idpName t) as [x1 t1].
  destruct (interactive a cluster2 idpName t) as [x2 t2].
  cbn [fst snd] in Hx, Hin, Hp. subst x2.
  destruct x1 as [[[[c s] o'] tm']|r]; cbn [fst snd]; now repeat split.
Qed.

(** X15: the interactive run that goes well.  When every prompt shown finds
    a typed line, the registration address parses and the hostname is absent
    or acceptable, the run succeeds: it shows the whole transcript, consumes
    the replies of its prompts, and the configuration holds the credentials
    given or typed, the hostname if any, and the comma-split of the resolved
    organizations or teams. *)
Theorem interactive_configuration (a : args.t) (cluster : Cluster)
    (idpName : string) (t : Terminal) (registerURL : url.URL) :
  ~ (args.githubOrganizations a <> "" /\ args.githubTeams a <> "") ->
  isInteractive (args.clientID a) (args.clientSecret a)
                (args.githubOrganizations a) (args.githubTeams a) = true ->
  (forall k, k < combinedPrompts a + clientIDPrompts a + clientSecretPrompts a ->
             typedAt k t <> None) ->
  url_Parse (registerURLBase (fst (resolved a t)) (snd (resolved a t)))
  = inr registerURL ->
  args.githubHostname a = ""
  \/ ((DNS1123Subdomain (args.githubHostname a)
       \/ netutils_ParseIPSloppy (args.githubHostname a) <> None)
      /\ ~ (args.githubHostname a = "github.com"
            \/ exists p, args.githubHostname a = p ++ ".github.com")) ->
  buildGithubIdp a cluster idpName t
  = ((cmv1.mkIdp
        (Some "GithubIdentityProvider") (Some idpName) (Some (args.mappingMethod a))
        (Some (cmv1.mkGithub
                 (Some (if args.clientID a =? "" then typed (combinedPrompts a) t
                        else args.clientID a))
                 (Some (if args.clientSecret a =? ""
                        then typed (combinedPrompts a + clientIDPrompts a) t
                        else args.clientSecret a))
                 (if args.githubHostname a =? "" then None
                  else Some (args.githubHostname a))
                 (if fst (resolved a t) =? "" then None
                  else Some (strings.Split (fst (resolved a t)) ","))
                 (if fst (resolved a t) =? "" then
                    if snd (resolved a t) =? "" then None
                    else Some (strings.Split (snd (resolved a t)) ",")
                  else None))),
      None),
     mkTerminal
       (skipn (combinedPrompts a + clientIDPrompts a + clientSecretPrompts a) (stdin t))
       (stdout t ++ transcript a cluster idpName registerURL)%list).
Proof.
  intros Hno Hmode Hall Hurl Hh.
  rewrite <- isValidHostname_spec, <- aliasesGithub_spec in Hh.
  assert (Hassemble : forall c s o tm,
    assemble a idpName c s o tm
    = (cmv1.mkIdp
         (Some "GithubIdentityProvider") (Some idpName) (Some (args.mappingMethod a))
         (Some (cmv1.mkGithub (Some c) (Some s)
                  (if args.githubHostname a =? "" then None
                   else Some (args.githubHostname a))
                  (if o =? "" then None else Some (strings.Split o ","))
                  (if o =? "" then
                     if tm =? "" then None else Some (strings.Split tm ",")
                   else None))), None)).
  { intros c s o tm. unfold assemble, attach, finish.
    destruct Hh as [Hh|[Hv Ha]].
    - rewrite Hh. cbn [String.eqb].
      destruct (o =? ""); destruct (tm =? ""); reflexivity.
    - rewrite Hv. destruct (aliasesGithub (args.githubHostname a));
        [now destruct Ha|].
      destruct (args.githubHostname a =? ""); destruct (o =? "");
        destruct (tm =? ""); reflexivity. }
  stopped_run Hno Hmode Hi.
  destruct x as [[[[c s] o'] tm']|r].
  - pose proof (interactive_values _ _ _ _ _ _ _ _ _ Hi) as (Hres & Hcid & Hsec).
    apply interactive_through in Hi
      as (u & Hu & Hout & Hin & _ & Hidt & Hsect).
    rewrite <- Hres in *. cbn [fst snd] in *.
    assert (u = registerURL) by congruence. subst u.
    rewrite Hassemble. destruct t'' as [i' o'']. cbn [stdin stdout] in *.
    subst i' o''. unfold typed.
    destruct (String.eqb_spec (args.clientID a) "") as [Hc|Hc];
      [rewrite (Hidt Hc) | rewrite (Hcid Hc)];
      (destruct (String.eqb_spec (args.clientSecret a) "") as [Hs|Hs];
       [rewrite (Hsect Hs) | rewrite (Hsec Hs)]); reflexivity.
  - exfalso. clear Hassemble Hh Hno Hmode.
    pose proof (Hall 0) as H0. pose proof (Hall 1) as H1. pose proof (Hall 2) as H2.
    clear Hall. flags a t.
    unfold combinedPrompts, clientIDPrompts, clientSecretPrompts, typedAt, resolved in *.
    cbn [args.clientID args.clientSecret args.githubOrganizations args.githubTeams
         stdin stdout] in *.
    run_paths Hi; settle Hurl;
      solve [ congruence
            | apply H0; [lia | reflexivity]
            | apply H1; [lia | reflexivity]
            | apply H2; [lia | reflexivity] ].
Qed.

End Run.

(** * The statements at concrete inputs

    Runs in the scripted environment, on the cluster [scripted.prod] and for
    the idp name [github]. *)

(** C1 at organizations [acme] with teams [acme/devs], a reply waiting. *)
Lemma conflict_before_prompting_witness :
  let a := args.mk "x" "y" "acme" "acme/devs" "" "claim" in
  let t := scripted.terminal [Some "id"] in
  args.githubOrganizations a <> "" /\ args.githubTeams a <> ""
  /\ exists e, ConflictError e
               /\ buildGithubIdp (H := scripted.externals) a scripted.prod "github" t
                  = ((cmv1.zero, Some e), t).
Proof.
  cbv zeta. split; [discriminate|]. split; [discriminate|].
  apply (conflict_before_prompting (E := scripted.externals)); discriminate.
Defined.

(** C2 in the scripted environment: the run succeeds and the organizations
    given by flag are not in the configuration. *)
Lemma supplied_organizations_lost_witness :
  let a := args.mk "" "secret" "acme" "" "" "claim" in
  let run := buildGithubIdp (H := scripted.externals) a scripted.prod "github"
                            (scripted.terminal [Some "id"]) in
  snd (fst run) = None
  /\ readOrganizations (fst (fst run)) = None
  /\ prompts (stdout (snd run)) = [clientIDPrompt].
Proof.
  cbv zeta.
  pose proof (supplied_organizations_lost (E := scripted.externals)
                scripted.prod "github" []) as (_ & Hlost & Hrun).
  destruct (Hrun (url.mkURL "https" "github.com" "/settings/applications/new" "" "")
              eq_refl) as [Hok Hasked].
  exact (conj Hok (conj Hlost Hasked)).
Defined.

(** C3 at client ID, client secret and organizations all given. *)
Lemma mode_resolver_witness :
  let a := args.mk "x" "y" "acme" "" "" "claim" in
  let t := scripted.terminal [Some "unused"] in
  args.clientID a <> "" /\ args.clientSecret a <> ""
  /\ snd (buildGithubIdp (H := scripted.externals) a scripted.prod "github" t) = t.
Proof.
  cbv zeta. split; [discriminate|]. split; [discriminate|].
  apply (proj1 (proj2 (proj2
           (mode_resolver (E := scripted.externals)
              (args.mk "x" "y" "acme" "" "" "claim") scripted.prod "github"
              (scripted.terminal [Some "unused"])))));
    [discriminate | discriminate | left; discriminate].
Defined.

(** C4 as it was stated fails at [github.com]: the hostname is a DNS-1123
    subdomain, and the run does not accept it. *)
Lemma hostname_accepted_counterexample :
  let run := buildGithubIdp (H := scripted.externals)
               (args.mk "x" "y" "acme" "" "github.com" "claim")
               scripted.prod "github" (scripted.terminal []) in
  ~ (snd (fst run) = None
     <-> DNS1123Subdomain "github.com"
         \/ netutils_ParseIPSloppy (Externals := scripted.externals) "github.com" <> None).
Proof.
  cbv zeta. intros [_ H].
  assert (Hdns : DNS1123Subdomain "github.com")
    by (apply IsDNS1123Subdomain_spec; reflexivity).
  specialize (H (or_introl Hdns)). discriminate H.
Defined.

(** C4, amended, at the hostname [ghe.example.com]. *)
Lemma hostname_accepted_iff_witness :
  let a := args.mk "x" "y" "acme" "" "" "claim" in
  let run := buildGithubIdp (H := scripted.externals)
               (withHostname "ghe.example.com" a) scripted.prod "github"
               (scripted.terminal []) in
  "ghe.example.com" <> ""
  /\ snd (fst (buildGithubIdp (H := scripted.externals) (withHostname "" a)
                 scripted.prod "github" (scripted.terminal []))) = None
  /\ (snd (fst run) = None -> readHostname (fst (fst run)) = Some "ghe.example.com").
Proof.
  cbv zeta. split; [discriminate|]. split; [reflexivity|].
  apply (proj1 (proj2
           (hostname_accepted_iff (E := scripted.externals)
              (args.mk "x" "y" "acme" "" "" "claim") "ghe.example.com"
              scripted.prod "github" (scripted.terminal [])
              ltac:(discriminate) eq_refl))).
Defined.

(** C5 at the hostname [x.github.com]. *)
Lemma github_domain_refused_witness :
  let a := args.mk "x" "y" "acme" "" "x.github.com" "claim" in
  (exists p, args.githubHostname a = p ++ ".github.com")
  /\ exists e,
       fst (buildGithubIdp (H := scripted.externals) a scripted.prod "github"
              (scripted.terminal []))
       = (cmv1.zero, Some e)
       /\ ValidationError "x.github.com" e.
Proof.
  cbv zeta. split; [now exists "x"|].
  destruct (github_domain_refused (E := scripted.externals)
              (args.mk "x" "y" "acme" "" "x.github.com" "claim") scripted.prod
              "github" (scripted.terminal [])
              (or_intror (ex_intro _ "x" eq_refl)))
    as (e & Hrun & Hkind & _).
  exists e. split; [exact Hrun|]. exact (proj1 (Hkind eq_refl)).
Defined.

(** C6 with Go's parser at the answers [acme], [acme/devs] and
    [acme,beta] to the combined prompt. *)
Lemma registration_url_path_witness :
  let run t := buildGithubIdp (H := gourl.externals)
                 (args.mk "x" "y" "" "" "" "claim") scripted.prod "github"
                 (scripted.terminal [Some t]) in
  (exists registerURL before after,
      stdout (snd (run "acme"))
      = (before ++ Printed (openURLLine (H := gourl.externals) scripted.prod "github"
                             registerURL) :: after)%list
      /\ url.Path registerURL = "/organizations/acme/settings/applications/new")
  /\ (exists registerURL before after,
      stdout (snd (run "acme/devs"))
      = (before ++ Printed (openURLLine (H := gourl.externals) scripted.prod "github"
                             registerURL) :: after)%list
      /\ url.Path registerURL = "/organizations/acme/settings/applications/new")
  /\ (exists registerURL before after,
      stdout (snd (run "acme,beta"))
      = (before ++ Printed (openURLLine (H := gourl.externals) scripted.prod "github"
                             registerURL) :: after)%list
      /\ url.Path registerURL = "/settings/applications/new").
Proof.
  cbv zeta.
  pose proof (fun t o tm =>
                registration_url_path (E := gourl.externals)
                  (args.mk "x" "y" "" "" "" "claim") scripted.prod "github"
                  (scripted.terminal [Some t]) o tm (fun rest => eq_refl) eq_refl)
    as H.
  split; [|split].
  - apply (proj1 (H "acme" "acme" ""
                    ltac:(intros [_ Hn]; now apply Hn) ltac:(discriminate) eq_refl));
      [discriminate | reflexivity | reflexivity].
  - apply (proj1 (proj2 (H "acme/devs" "" "acme/devs"
                    ltac:(intros [Hn _]; now apply Hn) ltac:(discriminate) eq_refl)));
      [intros [Hn _]; now apply Hn | discriminate | reflexivity | reflexivity].
  - apply (proj2 (proj2 (H "acme,beta" "acme,beta" ""
                    ltac:(intros [_ Hn]; now apply Hn) ltac:(discriminate) eq_refl)));
      [intros [_ Hc]; discriminate Hc | intros [Hn _]; now apply Hn].
Defined.

(** C6 as it was stated fails at the answer [a?b] to the combined prompt:
    the resolved organizations string is [a?b], non-empty and without a
    comma; the address is built and parsed, the run succeeds, and the URL
    shown has the path [/organizations/a], the rest of the address being
    its query. *)
Lemma registration_url_path_counterexample :
  let a := args.mk "x" "y" "" "" "" "claim" in
  let t := scripted.terminal [Some "a?b"] in
  let run := buildGithubIdp (H := gourl.externals) a scripted.prod "github" t in
  let registerURL :=
    url.mkURL "https" "github.com" "/organizations/a" "b/settings/applications/new" "" in
  resolved a t = ("a?b", "")
  /\ strings.Contains "a?b" "," = false
  /\ url_Parse (Externals := gourl.externals) (registerURLBase "a?b" "")
     = inr registerURL
  /\ snd (fst run) = None
  /\ stdout (snd run)
     = [Printed introLine; Asked organizationsPrompt;
        Printed (openURLLine (H := gourl.externals) scripted.prod "github" registerURL);
        Printed clickLine]
  /\ url.Path registerURL <> "/organizations/" ++ "a?b" ++ "/settings/applications/new".
Proof.
  cbv zeta. repeat split; try reflexivity. intros H. discriminate H.
Defined.

(** C7 as it was stated fails at the empty answer: the combined prompt is
    answered with an empty line and the run ends without an error. *)
Lemma combined_prompt_counterexample :
  let a := args.mk "x" "y" "" "" "" "claim" in
  let run := buildGithubIdp (H := scripted.externals) a scripted.prod "github"
               (scripted.terminal [Some ""]) in
  prompts (stdout (snd run)) = [organizationsPrompt]
  /\ ~ (exists e, InputError e /\ snd (fst run) = Some e).
Proof.
  cbv zeta. split; [reflexivity|]. intros (e & _ & He). discriminate He.
Defined.

(** C7, amended, at the answer [acme/devs,acme/ops]. *)
Lemma combined_prompt_witness :
  let a := args.mk "x" "y" "" "" "" "claim" in
  let run := buildGithubIdp (H := scripted.externals) a scripted.prod "github"
               (scripted.terminal [Some "acme/devs,acme/ops"]) in
  args.githubOrganizations a = "" /\ args.githubTeams a = ""
  /\ readTeams (fst (fst run)) = Some ["acme/devs"; "acme/ops"].
Proof.
  cbv zeta. split; [reflexivity|]. split; [reflexivity|].
  destruct (proj2 (combined_prompt (E := scripted.externals)
                     (args.mk "x" "y" "" "" "" "claim") scripted.prod "github"
                     (scripted.terminal [Some "acme/devs,acme/ops"])
                     eq_refl eq_refl)
                  "acme/devs,acme/ops" [] eq_refl)
    as (_ & _ & _ & Hread).
  exact (proj2 (Hread eq_refl)).
Defined.

(** C9 at a run that asks for everything. *)
Lemma organizations_xor_teams_witness :
  exists b t',
    buildGithubIdp (H := scripted.externals) (args.mk "" "" "" "" "" "claim")
      scripted.prod "github"
      (scripted.terminal [Some "acme,beta"; Some "id"; Some "secret"])
    = ((b, None), t')
    /\ readOrganizations b = Some ["acme"; "beta"]
    /\ readTeams b = None.
Proof.
  do 2 eexists. split; [reflexivity|].
  destruct (organizations_xor_teams (E := scripted.externals)
              (args.mk "" "" "" "" "" "claim") scripted.prod "github"
              (scripted.terminal [Some "acme,beta"; Some "id"; Some "secret"])
              _ _ eq_refl)
    as [(_ & Ho & Ht)|[(Hne & _)|(Hne & _)]];
    [exact (conj Ho Ht) | discriminate Hne | discriminate Hne].
Defined.

(** C10 at the empty mapping method. *)
Lemma mapping_method_unchecked_witness :
  let run := buildGithubIdp (H := scripted.externals)
               (withMappingMethod "" (args.mk "x" "y" "acme" "" "" "claim"))
               scripted.prod "github" (scripted.terminal []) in
  snd (fst run) = None /\ cmv1.mappingMethod (fst (fst run)) = Some "".
Proof.
  cbv zeta. split; [reflexivity|].
  apply (proj2 (proj2
           (mapping_method_unchecked (E := scripted.externals)
              (args.mk "x" "y" "acme" "" "" "claim") "" scripted.prod "github"
              (scripted.terminal [])))).
  reflexivity.
Defined.

(** * The further properties at concrete inputs *)

(** X1 at a run that asks for everything, one reply more than needed. *)
Lemma interactive_transcript_witness :
  let a := args.mk "" "" "" "" "" "claim" in
  let t := scripted.terminal [Some "acme"; Some "id"; Some "secret"; Some "more"] in
  let run := buildGithubIdp (H := scripted.externals) a scripted.prod "github" t in
  snd (fst run) = None
  /\ exists registerURL,
       prompts (stdout (snd run))
       = prompts (transcript (H := scripted.externals) a scripted.prod "github"
                             registerURL)
       /\ prompts (stdout (snd run))
          = [organizationsPrompt; clientIDPrompt; clientSecretPrompt]
       /\ stdin (snd run) = [Some "more"].
Proof.
  cbv zeta. split; [reflexivity|].
  destruct (interactive_transcript (E := scripted.externals)
              (args.mk "" "" "" "" "" "claim") scripted.prod "github"
              (scripted.terminal [Some "acme"; Some "id"; Some "secret"; Some "more"])
              _ _ _ eq_refl eq_refl
              (fun e' (H : None = Some e') => False_ind _ (eq_ind None
                 (fun o => match o with None => True | Some _ => False end) I _ H)))
    as (u & _ & Hout & Hin & _).
  exists u. split; [exact (f_equal prompts Hout) | split; [reflexivity | exact Hin]].
Defined.

(** X2 at an empty line typed for the client ID. *)
Lemma credentials_verbatim_witness :
  let a := args.mk "" "y" "" "" "" "claim" in
  let t := scripted.terminal [Some "acme"; Some ""] in
  exists b t' g,
    buildGithubIdp (H := scripted.externals) a scripted.prod "github" t = ((b, None), t')
    /\ cmv1.github b = Some g
    /\ cmv1.clientID g = Some ""
    /\ cmv1.clientSecret g = Some "y".
Proof.
  cbv zeta. do 2 eexists.
  destruct (credentials_verbatim (E := scripted.externals)
              (args.mk "" "y" "" "" "" "claim") scripted.prod "github"
              (scripted.terminal [Some "acme"; Some ""]) _ _ eq_refl)
    as (g & c & s & Hg & Hc & Hs & Hid & Hsec).
  exists g. split; [reflexivity|]. split; [exact Hg|].
  cbn in Hid, Hsec. injection Hid as <-. subst s. now split.
Defined.

(** X3 at the client ID prompt aborted. *)
Lemma client_id_abort_witness :
  let a := args.mk "" "y" "" "acme/devs" "" "claim" in
  fst (buildGithubIdp (H := scripted.externals) a scripted.prod "github"
         (scripted.terminal [None; Some "secret"]))
  = (cmv1.zero, Some expectedClientID)
  /\ stdin (snd (buildGithubIdp (H := scripted.externals) a scripted.prod "github"
                   (scripted.terminal [None; Some "secret"])))
     = [Some "secret"].
Proof.
  cbv zeta.
  rewrite (client_id_abort (E := scripted.externals)
             (args.mk "" "y" "" "acme/devs" "" "claim") scripted.prod "github"
             (scripted.terminal [None; Some "secret"])
             (url.mkURL "https" "github.com"
                        "/organizations/acme/settings/applications/new" "" ""));
    [split; reflexivity | intros [H _]; now apply H | reflexivity
     | discriminate | reflexivity | reflexivity].
Defined.

(** X4 at the input ending before the client secret. *)
Lemma client_secret_abort_witness :
  let a := args.mk "" "" "" "acme/devs" "" "claim" in
  fst (buildGithubIdp (H := scripted.externals) a scripted.prod "github"
         (scripted.terminal [Some "id"]))
  = (cmv1.zero, Some expectedClientSecret).
Proof.
  cbv zeta.
  rewrite (client_secret_abort (E := scripted.externals)
             (args.mk "" "" "" "acme/devs" "" "claim") scripted.prod "github"
             (scripted.terminal [Some "id"])
             (url.mkURL "https" "github.com"
                        "/organizations/acme/settings/applications/new" "" ""));
    [reflexivity | intros [H _]; now apply H | reflexivity
     | discriminate | discriminate | reflexivity | reflexivity].
Defined.

(** X5 at an organization name with a tab in it, which the scripted parser
    refuses as Go's does. *)
Lemma url_error_stops_witness :
  let a := args.mk "" "" "" "" "" "claim" in
  let t := scripted.terminal [Some (String "009"%char "acme"); Some "id"] in
  let run := buildGithubIdp (H := scripted.externals) a scripted.prod "github" t in
  (exists e, URLError e /\ fst run = (cmv1.zero, Some e))
  /\ prompts (stdout (snd run)) = [organizationsPrompt]
  /\ stdin (snd run) = [Some "id"].
Proof.
  cbv zeta.
  rewrite (url_error_stops (E := scripted.externals)
             (args.mk "" "" "" "" "" "claim") scripted.prod "github"
             (scripted.terminal [Some (String "009"%char "acme"); Some "id"])
             "net/url: invalid control character in URL");
    [ split; [eexists; split; [eexists; reflexivity | reflexivity]
             | split; reflexivity]
    | intros [H _]; now apply H | reflexivity | discriminate | reflexivity ].
Defined.

(** X8 at organizations and a hostname by flag. *)
Lemma batch_configuration_witness :
  buildGithubIdp (H := scripted.externals)
    (args.mk "x" "y" "acme,beta" "" "ghe.example.com" "claim")
    scripted.prod "github" (scripted.terminal [Some "unused"])
  = ((cmv1.mkIdp (Some "GithubIdentityProvider") (Some "github") (Some "claim")
        (Some (cmv1.mkGithub (Some "x") (Some "y") (Some "ghe.example.com")
                 (Some ["acme"; "beta"]) None)), None),
     scripted.terminal [Some "unused"]).
Proof.
  rewrite (batch_configuration (E := scripted.externals)
             (args.mk "x" "y" "acme,beta" "" "ghe.example.com" "claim")
             scripted.prod "github" (scripted.terminal [Some "unused"]));
    [ reflexivity | discriminate | discriminate | right; split; [discriminate | reflexivity]
    | right; split;
      [ left; apply IsDNS1123Subdomain_spec; reflexivity
      | intros H; apply aliasesGithub_spec in H;
        discriminate H ] ].
Defined.

(** X9 at a hostname that is not valid, on inputs that stop at the client
    ID prompt. *)
Lemma hostname_checked_last_witness :
  let a := args.mk "" "y" "acme" "" "" "claim" in
  fst (buildGithubIdp (H := scripted.externals) (withHostname "not_valid_host!" a)
         scripted.prod "github" (scripted.terminal [None]))
  = (cmv1.zero, Some expectedClientID).
Proof.
  cbv zeta.
  rewrite (proj2 (hostname_checked_last (E := scripted.externals)
                    (args.mk "" "y" "acme" "" "" "claim") "not_valid_host!"
                    scripted.prod "github" (scripted.terminal [None]))
                 expectedClientID eq_refl).
  reflexivity.
Defined.

(** X10 at a batch run without hostname. *)
Lemma no_hostname_no_check_witness :
  let a := args.mk "x" "y" "acme" "" "" "claim" in
  args.githubHostname a = ""
  /\ readHostname (fst (fst (buildGithubIdp (H := scripted.externals) a scripted.prod
                               "github" (scripted.terminal []))))
     = None.
Proof.
  cbv zeta. split; [reflexivity|].
  exact (no_hostname_no_check (E := scripted.externals)
           (args.mk "x" "y" "acme" "" "" "claim") scripted.prod "github"
           (scripted.terminal []) eq_refl).
Defined.

(** X11 at organizations with an empty name and a space. *)
Lemma names_kept_as_written_witness :
  exists b t',
    buildGithubIdp (H := scripted.externals)
      (args.mk "x" "y" "acme,, beta" "" "" "claim") scripted.prod "github"
      (scripted.terminal [])
    = ((b, None), t')
    /\ readOrganizations b = Some ["acme"; ""; " beta"]
    /\ String.concat "," ["acme"; ""; " beta"] = "acme,, beta".
Proof.
  do 2 eexists. split; [reflexivity|]. split; [reflexivity|].
  exact (proj1 (proj1 (names_kept_as_written (E := scripted.externals)
                         (args.mk "x" "y" "acme,, beta" "" "" "claim") scripted.prod
                         "github" (scripted.terminal []) _ _ eq_refl)
                      ["acme"; ""; " beta"] eq_refl)).
Defined.

(** X12 at a hostname by flag. *)
Lemma accepted_hostname_bytes_witness :
  exists b t',
    buildGithubIdp (H := scripted.externals)
      (args.mk "x" "y" "acme" "" "ghe.example.com" "claim") scripted.prod "github"
      (scripted.terminal [])
    = ((b, None), t')
    /\ readHostname b = Some "ghe.example.com"
    /\ "ghe.example.com" <> "".
Proof.
  do 2 eexists. split; [reflexivity|]. split; [reflexivity|].
  exact (proj1 (proj2 (accepted_hostname_bytes (E := scripted.externals)
                         (args.mk "x" "y" "acme" "" "ghe.example.com" "claim")
                         scripted.prod "github" (scripted.terminal []) _ _
                         "ghe.example.com" eq_refl eq_refl))).
Defined.

(** X13 at the team [acme/devs], and at an answer that starts with the
    slash. *)
Lemma single_team_registration_url_witness :
  let a := args.mk "" "" "" "" "" "claim" in
  registerURLBase (fst (resolved a (scripted.terminal [Some "acme/devs"])))
                  (snd (resolved a (scripted.terminal [Some "acme/devs"])))
  = "https://github.com/organizations/acme/settings/applications/new"
  /\ registerURLBase (fst (resolved a (scripted.terminal [Some "/devs"])))
                     (snd (resolved a (scripted.terminal [Some "/devs"])))
     = "https://github.com/organizations//settings/applications/new".
Proof.
  cbv zeta. split.
  - exact (proj2 (single_team_registration_url
                    (args.mk "" "" "" "" "" "claim")
                    (scripted.terminal [Some "acme/devs"]) "acme" "devs" []
                    eq_refl eq_refl eq_refl eq_refl eq_refl eq_refl)).
  - exact (proj2 (single_team_registration_url
                    (args.mk "" "" "" "" "" "claim")
                    (scripted.terminal [Some "/devs"]) "" "devs" []
                    eq_refl eq_refl eq_refl eq_refl eq_refl eq_refl)).
Defined.

(** X15 at a run that asks for the client secret only. *)
Lemma interactive_configuration_witness :
  fst (buildGithubIdp (H := scripted.externals)
         (args.mk "x" "" "" "acme/devs,acme/ops" "ghe.example.com" "claim")
         scripted.prod "github" (scripted.terminal [Some "secret"]))
  = (cmv1.mkIdp (Some "GithubIdentityProvider") (Some "github") (Some "claim")
       (Some (cmv1.mkGithub (Some "x") (Some "secret") (Some "ghe.example.com")
                None (Some ["acme/devs"; "acme/ops"]))), None).
Proof.
  rewrite (interactive_configuration (E := scripted.externals)
             (args.mk "x" "" "" "acme/devs,acme/ops" "ghe.example.com" "claim")
             scripted.prod "github" (scripted.terminal [Some "secret"])
             (url.mkURL "https" "github.com" "/settings/applications/new" "" ""));
    [ reflexivity | intros [H _]; now apply H | reflexivity
    | intros k Hk; cbn in Hk;
      destruct k as [|k]; [discriminate | exfalso; lia]
    | reflexivity
    | right; split;
      [ left; apply IsDNS1123Subdomain_spec; reflexivity
      | intros H; apply aliasesGithub_spec in H;
        discriminate H ] ].
Defined.
